(** * brian2.parsing.expressions: AST based analysis of expressions

    A shallow embedding of [brian2/parsing/expressions.py]: the boolean-type
    check [is_boolean_expression], the constant evaluator
    [_get_value_from_expression] and the dimension check
    [parse_expression_dimensions], each a recursive dispatch on the class of
    a Python [ast] node.  Exceptions are modelled by a result type; the
    variable table is a finite map from identifiers to descriptors. *)

From stdpp Require Import base option list strings gmap.
From Stdlib Require Import ZArith.

Local Open Scope string_scope.

(** ** The Python [ast] node classes the analyses dispatch on *)

Module ast.

(** The value of an [ast.NameConstant] node (Python 3.4 and later). *)
Inductive constant := CTrue | CFalse | CNone.

Inductive boolop := And | Or.

Inductive operator :=
| Add | Sub | Mult | Div | Mod | Pow
| LShift | RShift | BitOr | BitXor | BitAnd | FloorDiv.

Inductive unaryop := Invert | Not | UAdd | USub.

Inductive cmpop := Eq | NotEq | Lt | LtE | Gt | GtE | Is | IsNot | In | NotIn.

(** [value] is the type of the numbers held by [ast.Num] nodes.  [Other]
    stands for a node of any class the analyses have no branch for; it
    carries the class name, which the error messages print. *)
#[warnings="-register-all"] Inductive expr {value : Type} : Type :=
| NameConstant (v : constant)
| Name (id : string)
| Num (n : value)
| BoolOp (op : boolop) (values : list expr)
| Compare (left : expr) (ops : list cmpop) (comparators : list expr)
| Call (func : expr) (args : list expr) (keywords : list (string * expr))
       (starargs kwargs : option expr)
| BinOp (left : expr) (op : operator) (right : expr)
| UnaryOp (op : unaryop) (operand : expr)
| Other (cls : string).
Arguments expr : clear implicits.

(** [op.__class__.__name__] *)
Definition operator_name (op : operator) : string :=
  match op with
  | Add => "Add" | Sub => "Sub" | Mult => "Mult" | Div => "Div"
  | Mod => "Mod" | Pow => "Pow" | LShift => "LShift" | RShift => "RShift"
  | BitOr => "BitOr" | BitXor => "BitXor" | BitAnd => "BitAnd"
  | FloorDiv => "FloorDiv"
  end.

Definition unaryop_name (op : unaryop) : string :=
  match op with
  | Invert => "Invert" | Not => "Not" | UAdd => "UAdd" | USub => "USub"
  end.

End ast.

(** ** Exceptions

    Every message the module formats is a constructor carrying the values
    substituted into the format string, in the order of the source. *)

Inductive message (dim : Type) :=
| ought_to_be_boolean
| unknown_value (v : ast.constant)
| unknown_function (name : string)
| not_constant (name : string)
| not_scalar (name : string)
| unknown_identifier (name : string)
| no_value_for_boolean_operation
| no_value_for_function_call
| unsupported_operation (op : string)
| unknown_unary_operation (op : string)
| used_like_a_variable (name : string)
| comparison_of_different_units (e1 : string) (d1 : dim) (e2 : string) (d2 : dim)
| keyword_arguments_not_supported
| variable_number_of_arguments_not_supported
| no_unit_specification (name : string)
| wrong_number_of_parameters (name : string) (given needed : nat)
| argument_not_boolean (number : nat) (name : string) (arg : string)
| argument_wrong_units (number : nat) (name : string) (arg : string)
                       (d expected : dim)
| cannot_determine_units (e1 op e2 : string) (d1 d2 : dim)
| no_attribute (attr : string).

Arguments ought_to_be_boolean {dim}.
Arguments unknown_value {dim} v.
Arguments unknown_function {dim} name.
Arguments not_constant {dim} name.
Arguments not_scalar {dim} name.
Arguments unknown_identifier {dim} name.
Arguments no_value_for_boolean_operation {dim}.
Arguments no_value_for_function_call {dim}.
Arguments unsupported_operation {dim} op.
Arguments unknown_unary_operation {dim} op.
Arguments used_like_a_variable {dim} name.
Arguments comparison_of_different_units {dim} e1 d1 e2 d2.
Arguments keyword_arguments_not_supported {dim}.
Arguments variable_number_of_arguments_not_supported {dim}.
Arguments no_unit_specification {dim} name.
Arguments wrong_number_of_parameters {dim} name given needed.
Arguments argument_not_boolean {dim} number name arg.
Arguments argument_wrong_units {dim} number name arg d expected.
Arguments cannot_determine_units {dim} e1 op e2 d1 d2.
Arguments no_attribute {dim} attr.

(** An exception raised outside the module, by an operator of the Python
    numbers or by the renderer: its class and its text. *)
Inductive python_exception := exception (cls text : string).

(** The exceptions the module raises itself, each with its message, and
    [Propagated] for an exception of a collaborator that passes through. *)
Inductive exn (dim : Type) :=
| SyntaxError (m : message dim)
| ValueError (m : message dim)
| KeyError (m : message dim)
| TypeError (m : message dim)
| AttributeError (m : message dim)
| DimensionMismatchError (m : message dim)
| IndexError
| Propagated (e : python_exception).

Arguments SyntaxError {dim} m.
Arguments ValueError {dim} m.
Arguments KeyError {dim} m.
Arguments TypeError {dim} m.
Arguments AttributeError {dim} m.
Arguments DimensionMismatchError {dim} m.
Arguments IndexError {dim}.
Arguments Propagated {dim} e.

(** A call either returns a value or raises. *)
Inductive result (dim A : Type) :=
| Ok (a : A)
| Raise (e : exn dim).

Arguments Ok {dim A} a.
Arguments Raise {dim A} e.

Global Instance result_ret {dim} : MRet (result dim) := fun A a => Ok a.

Global Instance result_bind {dim} : MBind (result dim) := fun A B f m =>
  match m with
  | Ok a => f a
  | Raise e => Raise e
  end.

Definition raises {dim A} (r : result dim A) : Prop :=
  match r with Ok _ => False | Raise _ => True end.

(** ** Collaborators outside the module

    The arithmetic of the Python numbers, the dimension algebra of
    [brian2.units.fundamentalunits] and [NodeRenderer] are used by the module
    and defined elsewhere; the analyses take them as parameters.  [/], [%]
    and [**] return a number or the exception the operator raises, and so
    does the renderer return a text or the exception it raises. *)

Class Number (value : Type) := {
  num_add : value -> value -> value;                (* left + right *)
  num_sub : value -> value -> value;                (* left - right *)
  num_mul : value -> value -> value;                (* left * right *)
  num_div : value -> value -> value + python_exception;   (* left / right *)
  num_pow : value -> value -> value + python_exception;   (* left ** right *)
  num_mod : value -> value -> value + python_exception;   (* left % right *)
  num_neg : value -> value;                         (* -v *)
  num_one : value;                                  (* 1.0 *)
  num_zero : value                                  (* 0.0 *)
}.

Class DimensionAlgebra (dim value : Type) := {
  DIMENSIONLESS : dim;
  have_same_dimensions : dim -> dim -> bool;
  dim_mul : dim -> dim -> dim;                      (* left * right *)
  dim_div : dim -> dim -> dim;                      (* left / right *)
  dim_pow : dim -> value -> dim                     (* left ** n *)
}.

(** ** Descriptors held by the variable table *)

(** An entry of [Function._arg_units]: [None], [bool] or a unit. *)
Inductive arg_unit (dim : Type) :=
| any_unit
| bool_unit
| unit_of (d : dim).

Arguments any_unit {dim}.
Arguments bool_unit {dim}.
Arguments unit_of {dim} d.

(** [Function._return_unit]: [bool], a fixed unit (the integer 1 is the
    dimensionless one), or a function of the units of the arguments. *)
Inductive return_unit (dim : Type) :=
| returns_bool
| returns_unit (d : dim)
| returns_by_rule (rule : list dim -> dim).

Arguments returns_bool {dim}.
Arguments returns_unit {dim} d.
Arguments returns_by_rule {dim} rule.

Record variable_descriptor (dim value : Type) := {
  dimensions : dim;
  is_boolean : bool;
  constant : bool;
  scalar : bool;
  get_value : value
}.

Arguments dimensions {dim value} v.
Arguments is_boolean {dim value} v.
Arguments constant {dim value} v.
Arguments scalar {dim value} v.
Arguments get_value {dim value} v.

(** The three attributes are probed with [hasattr]; [None] is an attribute
    the object does not have. *)
Record function_descriptor (dim : Type) := {
  _arg_units : option (list (arg_unit dim));
  _return_unit : option (return_unit dim);
  _returns_bool : option bool
}.

Arguments _arg_units {dim} f.
Arguments _return_unit {dim} f.
Arguments _returns_bool {dim} f.

Inductive descriptor (dim value : Type) :=
| Var (v : variable_descriptor dim value)
| Func (f : function_descriptor dim).

Arguments Var {dim value} v.
Arguments Func {dim value} f.

Section Expressions.

Context {dim value : Type}.
Context `{!Number value} `{!DimensionAlgebra dim value}.

Local Abbreviation expr := (ast.expr value).
Local Abbreviation res := (result dim).

(** [NodeRenderer().render_node]: the text of the node, or the exception
    the renderer raises on a node it has no rule for. *)
Variable render_node : expr -> string + python_exception.

Variable variables : gmap string (descriptor dim value).

(** [name in ['True', 'False']] *)
Definition is_True_or_False (name : string) : bool :=
  String.eqb name "True" || String.eqb name "False".

(** [expr.func.id]: only an [ast.Name] has the attribute [id]. *)
Definition func_id (func : expr) : res string :=
  match func with
  | ast.Name id => Ok id
  | _ => Raise (AttributeError (no_attribute "id"))
  end.

(** *** [is_boolean_expression] *)

Fixpoint is_boolean_expression (e : expr) : res bool :=
  match e with
  | ast.BoolOp _ values =>
      (* all(is_boolean_expression(node, variables) for node in expr.values) *)
      all_boolean ← (fix all (nodes : list expr) : res bool :=
                       match nodes with
                       | [] => Ok true
                       | node :: nodes' =>
                           b ← is_boolean_expression node;
                           if b : bool then all nodes' else Ok false
                       end) values;
      if all_boolean : bool then Ok true
      else Raise (SyntaxError ought_to_be_boolean)
  | ast.NameConstant v =>
      match v with
      | ast.CTrue | ast.CFalse => Ok true
      | ast.CNone => Raise (ValueError (unknown_value v))
      end
  | ast.Name name =>
      match variables !! name with
      | Some (Var v) => Ok (is_boolean v)
      | Some (Func _) => Raise (AttributeError (no_attribute "is_boolean"))
      | None => Ok (String.eqb name "True" || String.eqb name "False")
      end
  | ast.Call func _ _ _ _ =>
      name ← func_id func;
      match variables !! name with
      | Some (Func f) =>
          match _returns_bool f with
          | Some b => Ok b
          | None => Raise (SyntaxError (unknown_function name))
          end
      | _ => Raise (SyntaxError (unknown_function name))
      end
  | ast.Compare _ _ _ => Ok true
  | ast.UnaryOp op _ => Ok (String.eqb (ast.unaryop_name op) "Not")
  | _ => Ok false
  end.

(** *** [_get_value_from_expression] *)

(** The result of [/], [%] or [**]: the number, or the exception the
    operator raised. *)
Definition arithmetic (v : value + python_exception) : res value :=
  match v with
  | inl v => Ok v
  | inr e => Raise (Propagated e)
  end.

Fixpoint _get_value_from_expression (e : expr) : res value :=
  match e with
  | ast.Name name =>
      match variables !! name with
      | Some (Var v) =>
          if negb (constant v) then Raise (SyntaxError (not_constant name))
          else if negb (scalar v) then Raise (SyntaxError (not_scalar name))
          else Ok (get_value v)
      | Some (Func _) =>
          (* getattr(variables[name], 'constant', False) *)
          Raise (SyntaxError (not_constant name))
      | None =>
          if is_True_or_False name
          then Ok (if String.eqb name "True" then num_one else num_zero)
          else Raise (ValueError (unknown_identifier name))
      end
  | ast.NameConstant v =>
      match v with
      | ast.CTrue => Ok num_one
      | ast.CFalse => Ok num_zero
      | ast.CNone => Raise (ValueError (unknown_value v))
      end
  | ast.Num n => Ok n
  | ast.BoolOp _ _ => Raise (SyntaxError no_value_for_boolean_operation)
  | ast.Compare _ _ _ => Raise (SyntaxError no_value_for_boolean_operation)
  | ast.Call _ _ _ _ _ => Raise (SyntaxError no_value_for_function_call)
  | ast.BinOp l op r =>
      left ← _get_value_from_expression l;
      right ← _get_value_from_expression r;
      match op with
      | ast.Add | ast.Sub => Ok (num_add left right)
      | ast.Mult => Ok (num_mul left right)
      | ast.Div => arithmetic (num_div left right)
      | ast.Pow => arithmetic (num_pow left right)
      | ast.Mod => arithmetic (num_mod left right)
      | _ => Raise (SyntaxError (unsupported_operation (ast.operator_name op)))
      end
  | ast.UnaryOp op operand =>
      v ← _get_value_from_expression operand;
      match op with
      | ast.Not => Raise (SyntaxError no_value_for_boolean_operation)
      | ast.USub => Ok (num_neg v)
      | _ => Raise (SyntaxError (unknown_unary_operation (ast.unaryop_name op)))
      end
  | ast.Other cls => Raise (SyntaxError (unsupported_operation cls))
  end.

(** *** [parse_expression_dimensions] *)

(** Modelled from the spec: [fail_for_dimension_mismatch] belongs to
    [brian2.units.fundamentalunits] and is not defined in this module.  The
    operand dimensions must be exactly equal, else a dimension-mismatch
    error with the message handed over. *)
Definition fail_for_dimension_mismatch (d1 d2 : dim) (m : message dim)
  : res unit :=
  if have_same_dimensions d1 d2 then Ok ()
  else Raise (DimensionMismatchError m).

(** [{'Add': '+', 'Sub': '-', 'Mod': '%'}.get(op)] where it is used. *)
Definition op_symbol (op : ast.operator) : string :=
  match op with
  | ast.Add => "+"
  | ast.Sub => "-"
  | ast.Mod => "%"
  | _ => "None"
  end.

(** [zip(subunits[:-1], subunits[1:])] *)
Definition adjacent {A} (subunits : list A) : list (A * A) :=
  zip (removelast subunits) (tail subunits).

(** [NodeRenderer().render_node(node)] where a message is formatted: an
    exception of the renderer is raised in place of the message. *)
Definition rendered (node : expr) : res string :=
  match render_node node with
  | inl text => Ok text
  | inr e => Raise (Propagated e)
  end.

(** The loop over the adjacent pairs of a comparison; the message always
    renders [expr.left] and [expr.comparators[0]], in this order. *)
Fixpoint compare_units (l : expr) (comparators : list expr)
  (pairs : list (dim * dim)) : res unit :=
  match pairs with
  | [] => Ok ()
  | (dl, dr) :: pairs' =>
      if negb (have_same_dimensions dl dr)
      then
        e1 ← rendered l;
        match comparators !! 0%nat with
        | Some c =>
            e2 ← rendered c;
            Raise (DimensionMismatchError
                     (comparison_of_different_units e1 dl e2 dr))
        | None => Raise IndexError
        end
      else compare_units l comparators pairs'
  end.

Fixpoint parse_expression_dimensions (e : expr) : res dim :=
  match e with
  | ast.NameConstant v =>
      match v with
      | ast.CTrue | ast.CFalse => Ok DIMENSIONLESS
      | ast.CNone => Raise (ValueError (unknown_value v))
      end
  | ast.Name name =>
      match variables !! name with
      | Some (Func _) => Raise (SyntaxError (used_like_a_variable name))
      | Some (Var v) => Ok (dimensions v)
      | None =>
          if is_True_or_False name then Ok DIMENSIONLESS
          else Raise (KeyError (unknown_identifier name))
      end
  | ast.Num _ => Ok DIMENSIONLESS
  | ast.BoolOp _ values =>
      _ ← (fix each (nodes : list expr) : res unit :=
             match nodes with
             | [] => Ok ()
             | node :: nodes' =>
                 _ ← parse_expression_dimensions node; each nodes'
             end) values;
      Ok DIMENSIONLESS
  | ast.Compare l _ comparators =>
      (* subexprs = [expr.left]+expr.comparators *)
      u ← parse_expression_dimensions l;
      us ← (fix each (nodes : list expr) : res (list dim) :=
              match nodes with
              | [] => Ok []
              | node :: nodes' =>
                  u ← parse_expression_dimensions node;
                  us ← each nodes';
                  Ok (u :: us)
              end) comparators;
      _ ← compare_units l comparators (adjacent (u :: us));
      Ok DIMENSIONLESS
  | ast.Call func args keywords starargs kwargs =>
      if negb (Nat.eqb (length keywords) 0)
      then Raise (ValueError keyword_arguments_not_supported)
      else if bool_decide (is_Some starargs)
      then Raise (ValueError variable_number_of_arguments_not_supported)
      else if bool_decide (is_Some kwargs)
      then Raise (ValueError keyword_arguments_not_supported)
      else
        name ← func_id func;
        match variables !! name with
        | None => Raise (SyntaxError (unknown_function name))
        | Some (Var _) => Raise (ValueError (no_unit_specification name))
        | Some (Func f) =>
            match _arg_units f, _return_unit f with
            | Some arg_units, Some ret =>
                if negb (Nat.eqb (length arg_units) (length args))
                then Raise (SyntaxError (wrong_number_of_parameters
                                           name (length args) (length arg_units)))
                else
                  _ ← (fix each (idx : nat) (args : list expr)
                           (units : list (arg_unit dim)) : res unit :=
                         match args, units with
                         | arg :: args', expected_unit :: units' =>
                             _ ← match expected_unit with
                                 | any_unit => Ok ()
                                 | bool_unit =>
                                     b ← is_boolean_expression arg;
                                     if negb b
                                     then
                                       text ← rendered arg;
                                       Raise (TypeError
                                                (argument_not_boolean
                                                   (idx + 1) name text))
                                     else Ok ()
                                 | unit_of expected =>
                                     u ← parse_expression_dimensions arg;
                                     if negb (have_same_dimensions u expected)
                                     then
                                       text ← rendered arg;
                                       Raise (DimensionMismatchError
                                                (argument_wrong_units
                                                   (idx + 1) name text
                                                   u expected))
                                     else Ok ()
                                 end;
                             each (S idx) args' units'
                         | _, _ => Ok ()
                         end) 0%nat args arg_units;
                  match ret with
                  | returns_bool => Ok DIMENSIONLESS
                  | returns_unit d => Ok d
                  | returns_by_rule rule =>
                      us ← (fix each (nodes : list expr) : res (list dim) :=
                              match nodes with
                              | [] => Ok []
                              | node :: nodes' =>
                                  u ← parse_expression_dimensions node;
                                  us ← each nodes';
                                  Ok (u :: us)
                              end) args;
                      Ok (rule us)
                  end
            | _, _ => Raise (ValueError (no_unit_specification name))
            end
        end
  | ast.BinOp l op r =>
      left ← parse_expression_dimensions l;
      right ← parse_expression_dimensions r;
      match op with
      | ast.Add | ast.Sub | ast.Mod =>
          (* the message is formatted before the dimensions are compared *)
          e1 ← rendered l;
          e2 ← rendered r;
          _ ← fail_for_dimension_mismatch left right
                (cannot_determine_units e1 (op_symbol op) e2 left right);
          Ok left
      | ast.Mult => Ok (dim_mul left right)
      | ast.Div => Ok (dim_div left right)
      | ast.Pow =>
          (* have_same_dimensions(left, 1): the number 1 is dimensionless *)
          if have_same_dimensions left DIMENSIONLESS
             && have_same_dimensions right DIMENSIONLESS
          then Ok DIMENSIONLESS
          else
            n ← _get_value_from_expression r;
            Ok (dim_pow left n)
      | _ => Raise (SyntaxError (unsupported_operation (ast.operator_name op)))
      end
  | ast.UnaryOp op operand =>
      u ← parse_expression_dimensions operand;
      if String.eqb (ast.unaryop_name op) "Not" then Ok DIMENSIONLESS
      else Ok u
  | ast.Other cls => Raise (SyntaxError (unsupported_operation cls))
  end.

(** *** The loops of the three functions, named

    Each equals the local loop of the function it comes from (see the
    unfolding lemmas below); the properties are stated with them. *)

(** [all(is_boolean_expression(node, variables) for node in expr.values)] *)
Fixpoint all_boolean (nodes : list expr) : res bool :=
  match nodes with
  | [] => Ok true
  | node :: nodes' =>
      b ← is_boolean_expression node;
      if b : bool then all_boolean nodes' else Ok false
  end.

(** [for node in expr.values: parse_expression_dimensions(node, variables)] *)
Fixpoint check_each (nodes : list expr) : res unit :=
  match nodes with
  | [] => Ok ()
  | node :: nodes' => _ ← parse_expression_dimensions node; check_each nodes'
  end.

(** [[parse_expression_dimensions(node, variables) for node in nodes]] *)
Fixpoint dimensions_of (nodes : list expr) : res (list dim) :=
  match nodes with
  | [] => Ok []
  | node :: nodes' =>
      u ← parse_expression_dimensions node;
      us ← dimensions_of nodes';
      Ok (u :: us)
  end.

(** The body of the loop over [enumerate(zip(expr.args, func._arg_units))]. *)
Definition check_argument (name : string) (idx : nat) (arg : expr)
  (expected_unit : arg_unit dim) : res unit :=
  match expected_unit with
  | any_unit => Ok ()
  | bool_unit =>
      b ← is_boolean_expression arg;
      if negb b
      then
        text ← rendered arg;
        Raise (TypeError (argument_not_boolean (idx + 1) name text))
      else Ok ()
  | unit_of expected =>
      u ← parse_expression_dimensions arg;
      if negb (have_same_dimensions u expected)
      then
        text ← rendered arg;
        Raise (DimensionMismatchError
                 (argument_wrong_units (idx + 1) name text u expected))
      else Ok ()
  end.

Fixpoint check_arguments (name : string) (idx : nat) (args : list expr)
  (units : list (arg_unit dim)) : res unit :=
  match args, units with
  | arg :: args', expected_unit :: units' =>
      _ ← check_argument name idx arg expected_unit;
      check_arguments name (S idx) args' units'
  | _, _ => Ok ()
  end.

(** What the call returns once its arguments are checked. *)
Definition return_dimensions (ret : return_unit dim) (args : list expr)
  : res dim :=
  match ret with
  | returns_bool => Ok DIMENSIONLESS
  | returns_unit d => Ok d
  | returns_by_rule rule => us ← dimensions_of args; Ok (rule us)
  end.

(** An argument that its entry of [_arg_units] lets through: any argument
    for [None], a boolean expression for [bool], an expression of the
    dimensions of the unit otherwise. *)
Inductive accepted (arg : expr) : arg_unit dim -> Prop :=
| accepted_any : accepted arg any_unit
| accepted_bool :
    is_boolean_expression arg = Ok true -> accepted arg bool_unit
| accepted_unit (u expected : dim) :
    parse_expression_dimensions arg = Ok u ->
    have_same_dimensions u expected = true ->
    accepted arg (unit_of expected).

(** *** Classes of expressions the properties speak of *)

(** The binary operators the module knows. *)
Definition arithmetic_operator (op : ast.operator) : bool :=
  match op with
  | ast.Add | ast.Sub | ast.Mult | ast.Div | ast.Mod | ast.Pow => true
  | _ => false
  end.


(** The expressions [_get_value_from_expression] has a value for, at most:
    identifiers, [True] and [False], numbers, the arithmetic operators and
    the unary minus over such expressions. *)
Inductive constant_expression : expr -> Prop :=
| constant_Name (id : string) : constant_expression (ast.Name id)
| constant_True : constant_expression (ast.NameConstant ast.CTrue)
| constant_False : constant_expression (ast.NameConstant ast.CFalse)
| constant_Num (n : value) : constant_expression (ast.Num n)
| constant_BinOp (l : expr) (op : ast.operator) (r : expr) :
    arithmetic_operator op = true ->
    constant_expression l -> constant_expression r ->
    constant_expression (ast.BinOp l op r)
| constant_USub (operand : expr) :
    constant_expression operand ->
    constant_expression (ast.UnaryOp ast.USub operand).

(** No [-] between two operands on the way from the root through binary
    and unary operations. *)
Fixpoint subtraction_free (e : expr) : bool :=
  match e with
  | ast.BinOp l op r =>
      match op with
      | ast.Sub => false
      | _ => subtraction_free l && subtraction_free r
      end
  | ast.UnaryOp _ operand => subtraction_free operand
  | _ => true
  end.

(** The number an operator returned, if it returned. *)
Definition number (v : value + python_exception) : option value :=
  match v with
  | inl v => Some v
  | inr _ => None
  end.

(** Modelled from the spec: the value of an expression of numbers, as the
    constant evaluator is described.  A numeric literal has its value; a
    binary operation applies the arithmetic ([+], [-], [*], [/], modulo,
    power) to the values of the two operands; arithmetic negation negates
    the value of the operand.  [None] where the arithmetic has no result or
    the expression is of another kind. *)
Fixpoint arithmetic_value (e : expr) : option value :=
  match e with
  | ast.Num n => Some n
  | ast.BinOp l op r =>
      a ← arithmetic_value l;
      b ← arithmetic_value r;
      match op with
      | ast.Add => Some (num_add a b)
      | ast.Sub => Some (num_sub a b)
      | ast.Mult => Some (num_mul a b)
      | ast.Div => number (num_div a b)
      | ast.Mod => number (num_mod a b)
      | ast.Pow => number (num_pow a b)
      | _ => None
      end
  | ast.UnaryOp ast.USub operand => num_neg <$> arithmetic_value operand
  | _ => None
  end.

End Expressions.

(** ** An instance for examples *)

Module example.

(** The integers as an instance of the numbers, for the examples.  [+], [-],
    [*], unary minus, [%] (remainder with the sign of the divisor) and [**]
    with a natural exponent are those of the Python integers; [/] and [%] by
    zero and [0 ** n] for a negative [n] raise [ZeroDivisionError] as they
    do.  Where Python leaves the integers the instance does not follow it:
    [/] is the floor division (that of Python 2 integers; Python 3 returns a
    float), and a negative power of a non-zero integer, a float in Python,
    is refused here.  The examples use neither. *)
#[export] Instance Z_number : Number Z := {|
  num_add := Z.add;
  num_sub := Z.sub;
  num_mul := Z.mul;
  num_div := fun a b =>
    if Z.eqb b 0
    then inr (exception "ZeroDivisionError" "integer division or modulo by zero")
    else inl (Z.div a b);
  num_pow := fun a b =>
    if Z.ltb b 0
    then if Z.eqb a 0
         then inr (exception "ZeroDivisionError"
                             "0.0 cannot be raised to a negative power")
         else inr (exception "ValueError" "negative power of an integer")
    else inl (Z.pow a b);
  num_mod := fun a b =>
    if Z.eqb b 0
    then inr (exception "ZeroDivisionError" "integer division or modulo by zero")
    else inl (Z.modulo a b);
  num_neg := Z.opp;
  num_one := 1%Z;
  num_zero := 0%Z
|}.

(** Modelled from the spec: the dimension algebra is a collaborator of this
    module.  A dimension is the vector of exponents over the seven base
    quantities (length, mass, time, current, temperature, amount, luminous
    intensity), dimensionless is the zero vector, two dimensions are equal
    iff all exponents match, multiplication adds and division subtracts the
    exponents, a power multiplies them. *)
#[export] Instance exponents : DimensionAlgebra (list Z) Z := {|
  DIMENSIONLESS := replicate 7 0%Z;
  have_same_dimensions := fun d1 d2 => bool_decide (d1 = d2);
  dim_mul := zip_with Z.add;
  dim_div := zip_with Z.sub;
  dim_pow := fun d n => (fun x => Z.mul x n) <$> d
|}.

Definition metre : list Z := [1; 0; 0; 0; 0; 0; 0]%Z.
Definition second : list Z := [0; 0; 1; 0; 0; 0; 0]%Z.

(** A renderer for the examples: an identifier is rendered by its name, a
    binary operation by its operands around the operator's class name.  As
    the renderer of brian2, it has no symbol for the operator [Invert] and
    raises [KeyError('Invert')] on it. *)
Fixpoint render (e : ast.expr Z) : string + python_exception :=
  match e with
  | ast.Name id => inl id
  | ast.BinOp l op r =>
      match render l, render r with
      | inl tl, inl tr =>
          inl (tl +:+ " " +:+ ast.operator_name op +:+ " " +:+ tr)
      | inr e, _ => inr e
      | _, inr e => inr e
      end
  | ast.UnaryOp ast.Invert _ => inr (exception "KeyError" "Invert")
  | _ => inl "..."
  end.

Definition quantity (d : list Z) : descriptor (list Z) Z :=
  Var {| dimensions := d; is_boolean := false; constant := false;
         scalar := false; get_value := 0%Z |}.

Definition flag : descriptor (list Z) Z :=
  Var {| dimensions := DIMENSIONLESS; is_boolean := true; constant := false;
         scalar := true; get_value := 1%Z |}.

(** [clip] with [_arg_units = [bool, None, None]]. *)
Definition clip : descriptor (list Z) Z :=
  Func {| _arg_units := Some [bool_unit; any_unit; any_unit];
          _return_unit := Some (returns_unit DIMENSIONLESS);
          _returns_bool := Some false |}.

(** A function with [_arg_units = [metre, bool]]. *)
Definition pick : descriptor (list Z) Z :=
  Func {| _arg_units := Some [unit_of metre; bool_unit];
          _return_unit := Some returns_bool;
          _returns_bool := Some true |}.

(** [{x: length, y: length, z: time}], a boolean [b], the functions [clip]
    and [pick], and a variable that took the name [True]. *)
Definition table : gmap string (descriptor (list Z) Z) :=
  <["x" := quantity metre]>
  (<["y" := quantity metre]>
  (<["z" := quantity second]>
  (<["b" := flag]>
  (<["clip" := clip]>
  (<["pick" := pick]>
  (<["True" := quantity metre]> ∅)))))).

Definition x : ast.expr Z := ast.Name "x".
Definition y : ast.expr Z := ast.Name "y".
Definition z : ast.expr Z := ast.Name "z".

(** A constant scalar [k = 2] that is a time, a function [sqrt] of one
    argument of any unit whose result halves the exponents of the argument,
    and a function [hold] of two arguments of any unit whose result is a
    time. *)
Definition k : descriptor (list Z) Z :=
  Var {| dimensions := second; is_boolean := false; constant := true;
         scalar := true; get_value := 2%Z |}.

Definition halved (us : list (list Z)) : list Z :=
  match us with
  | u :: _ => (fun x => Z.div x 2) <$> u
  | [] => DIMENSIONLESS
  end.

Definition sqrt : descriptor (list Z) Z :=
  Func {| _arg_units := Some [any_unit];
          _return_unit := Some (returns_by_rule halved);
          _returns_bool := Some false |}.

Definition hold : descriptor (list Z) Z :=
  Func {| _arg_units := Some [any_unit; any_unit];
          _return_unit := Some (returns_unit second);
          _returns_bool := Some false |}.

Definition larger_table : gmap string (descriptor (list Z) Z) :=
  <["k" := k]> (<["sqrt" := sqrt]> (<["hold" := hold]> table)).

(** A table of a boolean variable, a boolean function and a length. *)
Definition boolean_table : gmap string (descriptor (list Z) Z) :=
  <["b" := flag]> (<["pick" := pick]> (<["x" := quantity metre]> ∅)).

End example.

(** ** Properties *)

Section Properties.

Context {dim value : Type}.
Context `{!Number value} `{!DimensionAlgebra dim value}.

Variable render_node : ast.expr value -> string + python_exception.
Variable variables : gmap string (descriptor dim value).

Local Abbreviation expr := (ast.expr value).
Local Abbreviation res := (result dim).
Local Abbreviation is_boolean_expression := (is_boolean_expression variables).
Local Abbreviation _get_value_from_expression :=
  (_get_value_from_expression variables).
Local Abbreviation parse_expression_dimensions :=
  (parse_expression_dimensions render_node variables).
Local Abbreviation all_boolean := (all_boolean variables).
Local Abbreviation check_each := (check_each render_node variables).
Local Abbreviation dimensions_of := (dimensions_of render_node variables).
Local Abbreviation check_argument := (check_argument render_node variables).
Local Abbreviation check_arguments := (check_arguments render_node variables).
Local Abbreviation return_dimensions :=
  (return_dimensions render_node variables).
Local Abbreviation compare_units := (compare_units render_node).
Local Abbreviation accepted := (accepted render_node variables).

(** *** Unfolding the functions at each node class *)

Lemma is_boolean_expression_BoolOp (op : ast.boolop) (values : list expr) :
  is_boolean_expression (ast.BoolOp op values) =
    (all ← all_boolean values;
     if all : bool then Ok true else Raise (SyntaxError ought_to_be_boolean)).
Proof. reflexivity. Qed.

Lemma parse_expression_dimensions_BoolOp (op : ast.boolop) (values : list expr) :
  parse_expression_dimensions (ast.BoolOp op values) =
    (_ ← check_each values; Ok DIMENSIONLESS).
Proof. reflexivity. Qed.

Lemma parse_expression_dimensions_Compare (l : expr) (ops : list ast.cmpop)
  (comparators : list expr) :
  parse_expression_dimensions (ast.Compare l ops comparators) =
    (subunits ← dimensions_of (l :: comparators);
     _ ← compare_units l comparators (adjacent subunits);
     Ok DIMENSIONLESS).
Proof.
  change (parse_expression_dimensions (ast.Compare l ops comparators)) with
    (u ← parse_expression_dimensions l;
     us ← dimensions_of comparators;
     _ ← compare_units l comparators (adjacent (u :: us));
     Ok DIMENSIONLESS).
  cbn [dimensions_of].
  destruct (parse_expression_dimensions l); [|reflexivity].
  destruct (dimensions_of comparators); reflexivity.
Qed.

Lemma parse_expression_dimensions_Call (name : string) (args : list expr)
  (f : function_descriptor dim) (units : list (arg_unit dim))
  (ret : return_unit dim) :
  variables !! name = Some (Func f) ->
  _arg_units f = Some units ->
  _return_unit f = Some ret ->
  length units = length args ->
  parse_expression_dimensions (ast.Call (ast.Name name) args [] None None) =
    (_ ← check_arguments name 0 args units; return_dimensions ret args).
Proof.
  intros Hf Hu Hr Hlen. cbn. rewrite Hf, Hu, Hr, Hlen, Nat.eqb_refl. cbn.
  match goal with
  | |- mbind _ (?each 0%nat args units) = _ =>
      assert (Hloop : forall args units idx,
                 each idx args units = check_arguments name idx args units)
  end.
  { clear. intros args.
    induction args as [|arg args IH]; intros [|unit units] idx;
      try reflexivity.
    cbn. rewrite IH. reflexivity. }
  rewrite Hloop. reflexivity.
Qed.

(** *** Lists of sub-expressions *)

Lemma dimensions_of_Forall2 (nodes : list expr) (subunits : list dim) :
  Forall2 (fun node d => parse_expression_dimensions node = Ok d)
          nodes subunits <->
  dimensions_of nodes = Ok subunits.
Proof.
  revert subunits. induction nodes as [|node nodes IH]; intros subunits; cbn.
  - split.
    + intros Hall. inversion Hall. reflexivity.
    + intros [= <-]. constructor.
  - split.
    + intros Hall. inversion Hall as [|? d ? ds Hd Hds]; subst.
      rewrite Hd. cbn. apply IH in Hds. rewrite Hds. reflexivity.
    + destruct (parse_expression_dimensions node) as [d|] eqn:Hd; [|discriminate].
      cbn. destruct (dimensions_of nodes) as [ds|] eqn:Hds; [|discriminate].
      cbn. intros [= <-]. constructor; [assumption|]. apply IH. reflexivity.
Qed.

Lemma adjacent_cons {A} (a b : A) (l : list A) :
  adjacent (a :: b :: l) = (a, b) :: adjacent (b :: l).
Proof. reflexivity. Qed.

(** The pairs of [adjacent] are the pairs of neighbours of the list. *)
Lemma adjacent_Forall {A} (P : A -> A -> Prop) (l : list A) :
  Forall (fun p => P p.1 p.2) (adjacent l) <->
  (forall i a b, l !! i = Some a -> l !! S i = Some b -> P a b).
Proof.
  induction l as [|a l IH].
  - split; [|constructor]. intros _ i x y Hx. discriminate Hx.
  - destruct l as [|b l].
    + split; [|constructor]. intros _ i x y _ Hy. discriminate Hy.
    + rewrite adjacent_cons, Forall_cons, IH. cbn. split.
      * intros [Hab Hrest] [|i] x y Hx Hy.
        -- cbn in Hx, Hy. congruence.
        -- apply (Hrest i); assumption.
      * intros Hall. split.
        -- apply (Hall 0%nat); reflexivity.
        -- intros i x y Hx Hy. apply (Hall (S i)); assumption.
Qed.

Lemma compare_units_Ok (l : expr) (comparators : list expr)
  (pairs : list (dim * dim)) :
  compare_units l comparators pairs = Ok () <->
  Forall (fun p => have_same_dimensions p.1 p.2 = true) pairs.
Proof.
  induction pairs as [|[d1 d2] pairs IH]; cbn.
  - split; [constructor|reflexivity].
  - rewrite Forall_cons. cbn.
    destruct (have_same_dimensions d1 d2); cbn.
    + rewrite IH. tauto.
    + split; [|intros [? _]; discriminate].
      destruct (rendered render_node l) as [e1|ex]; cbn; [|discriminate].
      destruct (comparators !! 0%nat) as [c|]; [|discriminate].
      destruct (rendered render_node c); discriminate.
Qed.

(** Whatever pair fails, the message renders [l] and the first comparator,
    and an exception of the renderer takes the place of the error. *)
Lemma compare_units_Raise (l c : expr) (comparators : list expr)
  (pairs : list (dim * dim)) :
  compare_units l (c :: comparators) pairs = Ok () \/
  exists d1 d2,
    (d1, d2) ∈ pairs /\ have_same_dimensions d1 d2 = false /\
    compare_units l (c :: comparators) pairs =
      (e1 ← rendered render_node l;
       e2 ← rendered render_node c;
       Raise (DimensionMismatchError
                (comparison_of_different_units e1 d1 e2 d2))).
Proof.
  induction pairs as [|[d1 d2] pairs IH]; cbn.
  - left. reflexivity.
  - destruct (have_same_dimensions d1 d2) eqn:Hsame; cbn.
    + destruct IH as [IH|(e1 & e2 & Hin & Hne & IH)]; [left; assumption|].
      right. exists e1, e2. split; [right; assumption|]. split; assumption.
    + right. exists d1, d2. split; [left|]. split; [assumption|reflexivity].
Qed.

(** *** Comparison chains *)


(** *** Binary operations *)

(** C4.  For [+], [-] and [%] over operands that have a dimension and
    that the renderer renders, a [DimensionMismatchError] is raised if and
    only if the two dimensions differ; otherwise the result is the dimension
    of the left operand.  The two operands are rendered for the message
    before the dimensions are compared: an exception of the renderer is the
    exception of the operation, whatever the dimensions. *)
Theorem additive_dimensions (l r : expr) (op : ast.operator) (dl dr : dim) :
  op = ast.Add \/ op = ast.Sub \/ op = ast.Mod ->
  parse_expression_dimensions l = Ok dl ->
  parse_expression_dimensions r = Ok dr ->
  (forall e1 e2,
      render_node l = inl e1 -> render_node r = inl e2 ->
      ((exists m, parse_expression_dimensions (ast.BinOp l op r) =
                    Raise (DimensionMismatchError m))
       <-> have_same_dimensions dl dr = false)
      /\
      (have_same_dimensions dl dr = true ->
       parse_expression_dimensions (ast.BinOp l op r) = Ok dl))
  /\
  (forall ex,
      render_node l = inr ex \/
      (exists e1, render_node l = inl e1 /\ render_node r = inr ex) ->
      parse_expression_dimensions (ast.BinOp l op r) = Raise (Propagated ex)).
Proof.
  intros Hop Hl Hr.
  assert (Heq : parse_expression_dimensions (ast.BinOp l op r) =
                (e1 ← rendered render_node l;
                 e2 ← rendered render_node r;
                 _ ← fail_for_dimension_mismatch dl dr
                       (cannot_determine_units e1 (op_symbol op) e2 dl dr);
                 Ok dl)).
  { cbn. rewrite Hl, Hr. cbn. destruct Hop as [->|[->| ->]]; reflexivity. }
  rewrite Heq. unfold rendered, fail_for_dimension_mismatch. split.
  - intros e1 e2 -> ->. cbn.
    destruct (have_same_dimensions dl dr); cbn.
    + split; [|reflexivity]. split; [|discriminate].
      intros [m Hm]. discriminate Hm.
    + split; [|discriminate]. split; [reflexivity|].
      intros _. eexists. reflexivity.
  - intros ex [->|(e1 & -> & ->)]; reflexivity.
Qed.

(** C1.  For [**] over operands that have a dimension: when both are
    dimensionless the result is dimensionless, whatever the constant
    evaluator would say of the exponent; otherwise the exponent is evaluated
    by the constant evaluator and the result is the left dimension raised to
    that number.  An exponent the constant evaluator rejects makes the check
    raise unless both operands are dimensionless. *)
Theorem power_dimensions (l r : expr) :
  (forall dl dr,
      parse_expression_dimensions l = Ok dl ->
      parse_expression_dimensions r = Ok dr ->
      have_same_dimensions dl DIMENSIONLESS = true ->
      have_same_dimensions dr DIMENSIONLESS = true ->
      parse_expression_dimensions (ast.BinOp l ast.Pow r) = Ok DIMENSIONLESS)
  /\
  (forall dl dr,
      parse_expression_dimensions l = Ok dl ->
      parse_expression_dimensions r = Ok dr ->
      have_same_dimensions dl DIMENSIONLESS
        && have_same_dimensions dr DIMENSIONLESS = false ->
      parse_expression_dimensions (ast.BinOp l ast.Pow r) =
        (n ← _get_value_from_expression r; Ok (dim_pow dl n)))
  /\
  (forall e,
      _get_value_from_expression r = Raise e ->
      ~ (exists dl dr,
            parse_expression_dimensions l = Ok dl /\
            parse_expression_dimensions r = Ok dr /\
            have_same_dimensions dl DIMENSIONLESS = true /\
            have_same_dimensions dr DIMENSIONLESS = true) ->
      raises (parse_expression_dimensions (ast.BinOp l ast.Pow r))).
Proof.
  split; [|split].
  - intros dl dr Hl Hr Hdl Hdr. cbn. rewrite Hl, Hr. cbn.
    rewrite Hdl, Hdr. reflexivity.
  - intros dl dr Hl Hr Hnot. cbn. rewrite Hl, Hr. cbn.
    rewrite Hnot. reflexivity.
  - intros e He Hnot. cbn.
    destruct (parse_expression_dimensions l) as [dl|]; [|exact I].
    destruct (parse_expression_dimensions r) as [dr|]; [|exact I].
    cbn.
    destruct (have_same_dimensions dl DIMENSIONLESS) eqn:Hdl;
      destruct (have_same_dimensions dr DIMENSIONLESS) eqn:Hdr; cbn;
      try (rewrite He; exact I).
    exfalso. apply Hnot. exists dl, dr. repeat split; assumption.
Qed.

(** *** Unary operations *)

(** C10.  A unary operation other than [not] has the result of its operand:
    the same dimension, or the same exception; no operator is rejected. *)
Theorem unary_dimensions (op : ast.unaryop) (operand : expr) :
  op <> ast.Not ->
  parse_expression_dimensions (ast.UnaryOp op operand) =
    parse_expression_dimensions operand.
Proof.
  intros Hop. cbn.
  destruct (parse_expression_dimensions operand); [|reflexivity].
  destruct op; try reflexivity. contradiction.
Qed.

(** *** Identifiers *)

(** C8.  An identifier that is not in the table and is neither [True] nor
    [False] is not boolean for [is_boolean_expression], which returns, and
    is an unknown identifier for [parse_expression_dimensions], which raises
    a [KeyError]. *)
Theorem unknown_identifier_asymmetry (name : string) :
  variables !! name = None ->
  name <> "True" -> name <> "False" ->
  is_boolean_expression (ast.Name name) = Ok false /\
  parse_expression_dimensions (ast.Name name) =
    Raise (KeyError (unknown_identifier name)).
Proof.
  intros Hname HT HF. cbn. rewrite Hname. unfold is_True_or_False.
  apply String.eqb_neq in HT, HF. rewrite HT, HF. split; reflexivity.
Qed.

(** C9.  An entry of the table under the name [True] or [False] is what the
    three functions use: the [is_boolean] flag of a variable, its value once
    it is constant and scalar, its dimensions.  A function under that name
    makes each of them raise.  The reading of the name as a boolean literal
    is only for a name the table does not hold. *)
Theorem table_entry_precedes_literal (name : string) :
  name = "True" \/ name = "False" ->
  (forall v : variable_descriptor dim value,
      variables !! name = Some (Var v) ->
      is_boolean_expression (ast.Name name) = Ok (is_boolean v) /\
      _get_value_from_expression (ast.Name name) =
        (if negb (constant v) then Raise (SyntaxError (not_constant name))
         else if negb (scalar v) then Raise (SyntaxError (not_scalar name))
         else Ok (get_value v)) /\
      parse_expression_dimensions (ast.Name name) = Ok (dimensions v))
  /\
  (forall f : function_descriptor dim,
      variables !! name = Some (Func f) ->
      raises (is_boolean_expression (ast.Name name)) /\
      raises (_get_value_from_expression (ast.Name name)) /\
      raises (parse_expression_dimensions (ast.Name name)))
  /\
  (variables !! name = None ->
   is_boolean_expression (ast.Name name) = Ok true /\
   _get_value_from_expression (ast.Name name) =
     Ok (if String.eqb name "True" then num_one else num_zero) /\
   parse_expression_dimensions (ast.Name name) = Ok DIMENSIONLESS).
Proof.
  intros Hname. split; [|split].
  - intros v Hv. cbn. rewrite Hv. repeat split; reflexivity.
  - intros f Hf. cbn. rewrite Hf. repeat split; exact I.
  - intros Hnone. cbn. rewrite Hnone.
    destruct Hname as [-> | ->]; repeat split; reflexivity.
Qed.

(** *** Boolean combinations *)

Lemma all_boolean_true (values : list expr) :
  all_boolean values = Ok true <->
  Forall (fun node => is_boolean_expression node = Ok true) values.
Proof.
  induction values as [|node values IH]; cbn.
  - split; [constructor|reflexivity].
  - rewrite Forall_cons, <- IH.
    destruct (is_boolean_expression node) as [[|]|]; cbn.
    + split; [intros Hall; split; [reflexivity|exact Hall]|].
      intros [_ Hall]. exact Hall.
    + split; [discriminate|]. intros [Hnode _]. discriminate Hnode.
    + split; [discriminate|]. intros [Hnode _]. discriminate Hnode.
Qed.

Lemma all_boolean_false (pre post : list expr) (node : expr) :
  Forall (fun node => is_boolean_expression node = Ok true) pre ->
  is_boolean_expression node = Ok false ->
  all_boolean (pre ++ node :: post)%list = Ok false.
Proof.
  intros Hpre Hnode. induction Hpre as [|first pre Hfirst _ IH]; cbn.
  - rewrite Hnode. reflexivity.
  - rewrite Hfirst. cbn. exact IH.
Qed.

Lemma all_boolean_some_false (values : list expr) :
  Forall (fun node => exists b, is_boolean_expression node = Ok b) values ->
  Exists (fun node => is_boolean_expression node = Ok false) values ->
  all_boolean values = Ok false.
Proof.
  intros Hall. induction Hall as [|node values [b Hb] _ IH]; intros Hex.
  - inversion Hex.
  - cbn. rewrite Hb. cbn. destruct b; [|reflexivity].
    inversion Hex as [? ? Hfalse|? ? Htail]; subst.
    + rewrite Hb in Hfalse. discriminate Hfalse.
    + exact (IH Htail).
Qed.

(** C5.  A boolean combination is boolean when every operand is.  When
    the operands are checked and one of them is not boolean, a [SyntaxError]
    is raised; so it is already when the first operand that is not checked
    boolean is checked not boolean (an operand whose own check raises passes
    its exception on).  In no case is the answer [False]. *)
Theorem boolean_combination (op : ast.boolop) (values : list expr) :
  (Forall (fun node => is_boolean_expression node = Ok true) values ->
   is_boolean_expression (ast.BoolOp op values) = Ok true)
  /\
  (Forall (fun node => exists b, is_boolean_expression node = Ok b) values ->
   Exists (fun node => is_boolean_expression node = Ok false) values ->
   is_boolean_expression (ast.BoolOp op values) =
     Raise (SyntaxError ought_to_be_boolean))
  /\
  (forall (pre : list expr) (node : expr) (post : list expr),
      values = (pre ++ node :: post)%list ->
      Forall (fun node => is_boolean_expression node = Ok true) pre ->
      is_boolean_expression node = Ok false ->
      is_boolean_expression (ast.BoolOp op values) =
        Raise (SyntaxError ought_to_be_boolean))
  /\
  is_boolean_expression (ast.BoolOp op values) <> Ok false.
Proof.
  rewrite is_boolean_expression_BoolOp. repeat split.
  - intros Hall. apply all_boolean_true in Hall. rewrite Hall. reflexivity.
  - intros Hall Hex. rewrite (all_boolean_some_false values Hall Hex).
    reflexivity.
  - intros pre node post -> Hpre Hnode.
    rewrite (all_boolean_false pre post node Hpre Hnode). reflexivity.
  - destruct (all_boolean values) as [[|]|]; discriminate.
Qed.

(** *** Function calls *)

Lemma check_argument_accepted (name : string) (idx : nat) (arg : expr)
  (expected_unit : arg_unit dim) :
  accepted arg expected_unit ->
  check_argument name idx arg expected_unit = Ok ().
Proof.
  intros [|Hbool|u expected Hu Hsame]; cbn.
  - reflexivity.
  - rewrite Hbool. reflexivity.
  - rewrite Hu. cbn. rewrite Hsame. reflexivity.
Qed.

(** The loop stops at the first argument that fails its check. *)
Lemma check_arguments_not_boolean (name : string) (i : nat) :
  forall (idx : nat) (args : list expr) (units : list (arg_unit dim))
         (arg : expr),
    units !! i = Some bool_unit ->
    args !! i = Some arg ->
    (forall j a u, j < i -> args !! j = Some a -> units !! j = Some u ->
                   accepted a u) ->
    is_boolean_expression arg = Ok false ->
    check_arguments name idx args units =
      (text ← rendered render_node arg;
       Raise (TypeError (argument_not_boolean (idx + i + 1) name text))).
Proof.
  induction i as [|i IH]; intros idx [|a args] [|u units] arg Hu Ha Hbefore Hb;
    try discriminate.
  - cbn in Hu, Ha. injection Hu as ->. injection Ha as ->.
    cbn. rewrite Hb. cbn. rewrite Nat.add_0_r.
    destruct (rendered render_node arg); reflexivity.
  - cbn in Hu, Ha.
    change (check_arguments name idx (a :: args) (u :: units)) with
      (_ ← check_argument name idx a u;
       check_arguments name (S idx) args units).
    rewrite (check_argument_accepted name idx a u).
    + cbn. rewrite (IH (S idx) args units arg Hu Ha).
      * replace (S idx + i)%nat with (idx + S i)%nat by apply Nat.add_succ_r.
        reflexivity.
      * intros j a' u' Hj Ha' Hu'.
        apply (Hbefore (S j)); [apply (proj1 (Nat.succ_lt_mono j i) Hj)|assumption..].
      * assumption.
    + apply (Hbefore 0%nat); [apply Nat.lt_0_succ|reflexivity..].
Qed.

(** C6.  In a call of a function that tells its units, with as many
    arguments as [_arg_units] has entries, where the entry at position [i]
    is [bool], the arguments before position [i] are accepted and the
    argument at position [i] is checked not boolean: once the renderer
    renders the argument, a [TypeError] is raised that carries the number
    [i + 1], the name of the function and the rendered argument; an
    exception of the renderer on the argument is raised in its place. *)
Theorem boolean_argument_type_error (name : string)
  (f : function_descriptor dim) (units : list (arg_unit dim))
  (ret : return_unit dim) (args : list expr) (i : nat) (arg : expr) :
  variables !! name = Some (Func f) ->
  _arg_units f = Some units ->
  _return_unit f = Some ret ->
  length units = length args ->
  units !! i = Some bool_unit ->
  args !! i = Some arg ->
  (forall j a u, j < i -> args !! j = Some a -> units !! j = Some u ->
                 accepted a u) ->
  is_boolean_expression arg = Ok false ->
  (forall text,
      render_node arg = inl text ->
      parse_expression_dimensions (ast.Call (ast.Name name) args [] None None) =
        Raise (TypeError (argument_not_boolean (i + 1) name text)))
  /\
  (forall ex,
      render_node arg = inr ex ->
      parse_expression_dimensions (ast.Call (ast.Name name) args [] None None) =
        Raise (Propagated ex)).
Proof.
  intros Hf Hunits Hret Hlen Hu Ha Hbefore Hb.
  rewrite (parse_expression_dimensions_Call name args f units ret Hf Hunits
             Hret Hlen).
  rewrite (check_arguments_not_boolean name i 0 args units arg Hu Ha Hbefore Hb).
  unfold rendered. split.
  - intros text ->. reflexivity.
  - intros ex ->. reflexivity.
Qed.

(** *** The constant evaluator *)

(** A number is its own value, and [+], [*], [/], [%] and [**] are applied
    to the values of the operands. *)
Lemma constant_arithmetic (l r : expr) (a b : value) :
  _get_value_from_expression l = Ok a ->
  _get_value_from_expression r = Ok b ->
  _get_value_from_expression (ast.BinOp l ast.Add r) = Ok (num_add a b) /\
  _get_value_from_expression (ast.BinOp l ast.Mult r) = Ok (num_mul a b) /\
  _get_value_from_expression (ast.BinOp l ast.Div r) =
    arithmetic (num_div a b) /\
  _get_value_from_expression (ast.BinOp l ast.Mod r) =
    arithmetic (num_mod a b) /\
  _get_value_from_expression (ast.BinOp l ast.Pow r) =
    arithmetic (num_pow a b).
Proof.
  intros Hl Hr. cbn. rewrite Hl, Hr. repeat split; reflexivity.
Qed.

(** A variable that is not constant has no value. *)
Lemma constant_required (name : string) (v : variable_descriptor dim value) :
  variables !! name = Some (Var v) ->
  constant v = false ->
  _get_value_from_expression (ast.Name name) =
    Raise (SyntaxError (not_constant name)).
Proof.
  intros Hname Hconstant. cbn. rewrite Hname, Hconstant. reflexivity.
Qed.

(** C7.  The difference of two numbers evaluates to their sum: [-] takes
    the branch of [+]. *)
Theorem subtraction_evaluates_as_addition (a b : value) :
  _get_value_from_expression (ast.BinOp (ast.Num a) ast.Sub (ast.Num b)) =
    Ok (num_add a b).
Proof. reflexivity. Qed.

End Properties.

(** ** The properties on the examples *)

Section Examples.

Import example.

Local Abbreviation is_boolean_expression := (is_boolean_expression table).
Local Abbreviation _get_value_from_expression :=
  (_get_value_from_expression table).
Local Abbreviation parse_expression_dimensions :=
  (parse_expression_dimensions render table).

Example two_plus_three_times_four :
  _get_value_from_expression
    (ast.BinOp (ast.Num 2%Z) ast.Add
               (ast.BinOp (ast.Num 3%Z) ast.Mult (ast.Num 4%Z))) = Ok 14%Z.
Proof. reflexivity. Qed.

Example not_constant_has_no_value :
  _get_value_from_expression x = Raise (SyntaxError (not_constant "x")).
Proof. reflexivity. Qed.

(** [3 - 1] evaluates to 4, and [x ** (3 - 1)] is a length to the fourth. *)
Example three_minus_one :
  _get_value_from_expression
    (ast.BinOp (ast.Num 3%Z) ast.Sub (ast.Num 1%Z)) = Ok 4%Z /\
  parse_expression_dimensions
    (ast.BinOp x ast.Pow (ast.BinOp (ast.Num 3%Z) ast.Sub (ast.Num 1%Z))) =
    Ok [4; 0; 0; 0; 0; 0; 0]%Z.
Proof. split; reflexivity. Qed.

(** C3.  In [x < y < z] with [x] and [y] lengths and [z] a time, the pair
    that differs is [y] and [z]; the error carries their two dimensions next
    to the rendered [x] and [y]. *)
Theorem comparison_message_renders_first_pair :
  parse_expression_dimensions x = Ok metre /\
  parse_expression_dimensions y = Ok metre /\
  parse_expression_dimensions z = Ok second /\
  render z = inl "z" /\
  parse_expression_dimensions (ast.Compare x [ast.Lt; ast.Lt] [y; z]) =
    Raise (DimensionMismatchError
             (comparison_of_different_units "x" metre "y" second)).
Proof. repeat split; reflexivity. Qed.



Lemma additive_dimensions_witness :
  parse_expression_dimensions (ast.BinOp x ast.Add y) = Ok metre /\
  (exists m,
     parse_expression_dimensions (ast.BinOp x ast.Sub z) =
       Raise (DimensionMismatchError m)) /\
  parse_expression_dimensions
    (ast.BinOp (ast.UnaryOp ast.Invert x) ast.Mod z) =
    Raise (Propagated (exception "KeyError" "Invert")).
Proof.
  split; [|split].
  - apply (proj2 (proj1 (additive_dimensions render table x y ast.Add
                           metre metre
                           ltac:(left; reflexivity) eq_refl eq_refl)
                    "x" "y" eq_refl eq_refl)).
    reflexivity.
  - apply (proj1 (proj1 (additive_dimensions render table x z ast.Sub
                           metre second
                           ltac:(right; left; reflexivity) eq_refl eq_refl)
                    "x" "z" eq_refl eq_refl)).
    reflexivity.
  - apply (proj2 (additive_dimensions render table
                    (ast.UnaryOp ast.Invert x) z ast.Mod metre second
                    ltac:(right; right; reflexivity) eq_refl eq_refl)).
    left. reflexivity.
Defined.

(** In [(~x) + y] two lengths are added, and the result is the [KeyError]
    of the renderer, not the length. *)
Lemma additive_dimensions_counterexample :
  parse_expression_dimensions (ast.UnaryOp ast.Invert x) = Ok metre /\
  parse_expression_dimensions y = Ok metre /\
  have_same_dimensions metre metre = true /\
  parse_expression_dimensions
    (ast.BinOp (ast.UnaryOp ast.Invert x) ast.Add y) <> Ok metre.
Proof.
  repeat split. intros Hm. vm_compute in Hm. discriminate Hm.
Qed.

Lemma power_dimensions_witness :
  parse_expression_dimensions
    (ast.BinOp (ast.Num 2%Z) ast.Pow (ast.Name "b")) = Ok DIMENSIONLESS /\
  parse_expression_dimensions (ast.BinOp x ast.Pow (ast.Num 2%Z)) =
    Ok [2; 0; 0; 0; 0; 0; 0]%Z /\
  raises (parse_expression_dimensions (ast.BinOp x ast.Pow y)).
Proof.
  split; [|split].
  - apply (proj1 (power_dimensions render table (ast.Num 2%Z) (ast.Name "b"))
             DIMENSIONLESS DIMENSIONLESS); reflexivity.
  - refine (eq_trans
              (proj1 (proj2 (power_dimensions render table x (ast.Num 2%Z)))
                 metre DIMENSIONLESS _ _ _) _); reflexivity.
  - apply (proj2 (proj2 (power_dimensions render table x y))
             (SyntaxError (not_constant "y"))); [reflexivity|].
    intros (dl & dr & Hl & _ & Hdl & _).
    injection Hl as <-. discriminate Hdl.
Defined.

Lemma unary_dimensions_witness :
  parse_expression_dimensions (ast.UnaryOp ast.UAdd x) = Ok metre /\
  parse_expression_dimensions (ast.UnaryOp ast.Invert x) = Ok metre.
Proof.
  split.
  - apply (unary_dimensions render table ast.UAdd x). discriminate.
  - apply (unary_dimensions render table ast.Invert x). discriminate.
Defined.

Lemma unknown_identifier_asymmetry_witness :
  is_boolean_expression (ast.Name "w") = Ok false /\
  parse_expression_dimensions (ast.Name "w") =
    Raise (KeyError (unknown_identifier "w")).
Proof.
  apply (unknown_identifier_asymmetry render table "w");
    [reflexivity|discriminate..].
Defined.

Lemma table_entry_precedes_literal_witness :
  (is_boolean_expression (ast.Name "True") = Ok false /\
   _get_value_from_expression (ast.Name "True") =
     Raise (SyntaxError (not_constant "True")) /\
   parse_expression_dimensions (ast.Name "True") = Ok metre) /\
  (is_boolean_expression (ast.Name "False") = Ok true /\
   _get_value_from_expression (ast.Name "False") = Ok 0%Z /\
   parse_expression_dimensions (ast.Name "False") = Ok DIMENSIONLESS).
Proof.
  split.
  - apply (proj1 (table_entry_precedes_literal render table "True"
                    ltac:(left; reflexivity))
             {| dimensions := metre; is_boolean := false; constant := false;
                scalar := false; get_value := 0%Z |}).
    reflexivity.
  - apply (proj2 (proj2 (table_entry_precedes_literal render table "False"
                           ltac:(right; reflexivity)))).
    reflexivity.
Defined.

Lemma boolean_combination_witness :
  is_boolean_expression
    (ast.BoolOp ast.And [ast.Compare x [ast.Lt] [y]; ast.Name "b"]) =
    Ok true /\
  is_boolean_expression (ast.BoolOp ast.And [ast.Compare x [ast.Lt] [y]; z]) =
    Raise (SyntaxError ought_to_be_boolean) /\
  is_boolean_expression
    (ast.BoolOp ast.Or [ast.Name "b"; z; ast.NameConstant ast.CNone]) =
    Raise (SyntaxError ought_to_be_boolean).
Proof.
  split; [|split].
  - apply (proj1 (boolean_combination table ast.And
                    [ast.Compare x [ast.Lt] [y]; ast.Name "b"])).
    repeat constructor.
  - apply (proj1 (proj2 (boolean_combination table ast.And
                           [ast.Compare x [ast.Lt] [y]; z]))).
    + repeat constructor; eexists; reflexivity.
    + right. left. reflexivity.
  - apply (proj1 (proj2 (proj2 (boolean_combination table ast.Or
                                  [ast.Name "b"; z;
                                   ast.NameConstant ast.CNone])))
             [ast.Name "b"] z [ast.NameConstant ast.CNone]);
      [reflexivity|repeat constructor|reflexivity].
Defined.

Lemma boolean_argument_type_error_witness :
  parse_expression_dimensions
    (ast.Call (ast.Name "pick") [x; y] [] None None) =
    Raise (TypeError (argument_not_boolean 2 "pick" "y")) /\
  parse_expression_dimensions
    (ast.Call (ast.Name "pick") [x; ast.UnaryOp ast.Invert y] [] None None) =
    Raise (Propagated (exception "KeyError" "Invert")).
Proof.
  assert (Hbefore : forall (arg : ast.expr Z) j a u,
             j < 1 -> [x; arg] !! j = Some a ->
             [unit_of metre; bool_unit] !! j = Some u ->
             accepted render table a u).
  { intros arg [|j] a u Hj Ha Hu.
    - injection Ha as <-. injection Hu as <-.
      apply (accepted_unit render table x metre metre); reflexivity.
    - apply Nat.succ_lt_mono in Hj. inversion Hj. }
  split.
  - apply (proj1 (boolean_argument_type_error render table "pick"
           {| _arg_units := Some [unit_of metre; bool_unit];
              _return_unit := Some returns_bool;
              _returns_bool := Some true |}
           [unit_of metre; bool_unit] returns_bool [x; y] 1 y
           eq_refl eq_refl eq_refl eq_refl eq_refl eq_refl
           (Hbefore y) eq_refl)).
    reflexivity.
  - apply (proj2 (boolean_argument_type_error render table "pick"
           {| _arg_units := Some [unit_of metre; bool_unit];
              _return_unit := Some returns_bool;
              _returns_bool := Some true |}
           [unit_of metre; bool_unit] returns_bool
           [x; ast.UnaryOp ast.Invert y] 1 (ast.UnaryOp ast.Invert y)
           eq_refl eq_refl eq_refl eq_refl eq_refl eq_refl
           (Hbefore (ast.UnaryOp ast.Invert y)) eq_refl)).
    reflexivity.
Defined.

(** In [pick(x, ~y)] the second argument is to be boolean and is not, and
    the exception is the [KeyError] of the renderer, not a [TypeError]. *)
Lemma boolean_argument_type_error_counterexample :
  is_boolean_expression (ast.UnaryOp ast.Invert y) = Ok false /\
  ~ (exists m,
        parse_expression_dimensions
          (ast.Call (ast.Name "pick") [x; ast.UnaryOp ast.Invert y]
                    [] None None) =
          Raise (TypeError m)).
Proof.
  split; [reflexivity|]. intros [m Hm]. vm_compute in Hm. discriminate Hm.
Qed.

End Examples.

(** ** Further properties of the three functions *)

Section Coverage.

Context {dim value : Type}.
Context `{!Number value} `{!DimensionAlgebra dim value}.

Variable render_node : ast.expr value -> string + python_exception.
Variable variables : gmap string (descriptor dim value).

Local Abbreviation expr := (ast.expr value).
Local Abbreviation res := (result dim).
Local Abbreviation is_boolean_expression := (is_boolean_expression variables).
Local Abbreviation _get_value_from_expression :=
  (_get_value_from_expression variables).
Local Abbreviation parse_expression_dimensions :=
  (parse_expression_dimensions render_node variables).
Local Abbreviation all_boolean := (all_boolean variables).
Local Abbreviation check_each := (check_each render_node variables).
Local Abbreviation dimensions_of := (dimensions_of render_node variables).
Local Abbreviation check_argument := (check_argument render_node variables).
Local Abbreviation check_arguments := (check_arguments render_node variables).
Local Abbreviation return_dimensions :=
  (return_dimensions render_node variables).
Local Abbreviation compare_units := (compare_units render_node).
Local Abbreviation accepted := (accepted render_node variables).

(** Induction over expressions with the lists of operands, comparators and
    arguments covered. *)
Lemma expr_nested_ind (P : expr -> Prop) :
  (forall v, P (ast.NameConstant v)) ->
  (forall id, P (ast.Name id)) ->
  (forall n, P (ast.Num n)) ->
  (forall op values, Forall P values -> P (ast.BoolOp op values)) ->
  (forall l ops comparators,
      P l -> Forall P comparators -> P (ast.Compare l ops comparators)) ->
  (forall func args keywords starargs kwargs,
      Forall P args -> P (ast.Call func args keywords starargs kwargs)) ->
  (forall l op r, P l -> P r -> P (ast.BinOp l op r)) ->
  (forall op operand, P operand -> P (ast.UnaryOp op operand)) ->
  (forall cls, P (ast.Other cls)) ->
  forall e, P e.
Proof.
  intros HNameConstant HName HNum HBoolOp HCompare HCall HBinOp HUnaryOp
    HOther.
  fix IH 1. intros e.
  assert (Hlist : forall nodes : list expr, Forall P nodes).
  { fix IHnodes 1. intros [|node nodes]; constructor.
    - apply IH.
    - apply IHnodes. }
  destruct e as [v|id|n|op values|l ops comparators
                |func args keywords starargs kwargs|l op r|op operand|cls].
  - apply HNameConstant.
  - apply HName.
  - apply HNum.
  - apply HBoolOp, Hlist.
  - apply HCompare; [apply IH|apply Hlist].
  - apply HCall, Hlist.
  - apply HBinOp; apply IH.
  - apply HUnaryOp, IH.
  - apply HOther.
Qed.

(** *** The constant evaluator *)

(** X1.  An expression that has a value is made of identifiers, [True],
    [False], numbers, the six arithmetic operators and the unary minus. *)
Theorem value_only_of_constant_expression (e : expr) (v : value) :
  _get_value_from_expression e = Ok v -> constant_expression e.
Proof.
  revert v.
  induction e as [c|id|n|op values|l IHl ops comparators
                 |func IHfunc args keywords starargs kwargs
                 |l IHl op r IHr|op operand IH|cls] using ast.expr_ind;
    intros v Hv; cbn in Hv; try discriminate.
  - destruct c; try discriminate; constructor.
  - constructor.
  - constructor.
  - destruct (_get_value_from_expression l) as [a|] eqn:Hl; [|discriminate].
    destruct (_get_value_from_expression r) as [b|] eqn:Hr; [|discriminate].
    constructor; [|apply (IHl a); reflexivity|apply (IHr b); reflexivity].
    destruct op; try reflexivity; discriminate.
  - destruct (_get_value_from_expression operand) as [a|] eqn:Ha;
      [|discriminate].
    destruct op; try discriminate.
    constructor. apply (IH a). reflexivity.
Qed.


(** X3.  On an expression without [-] between operands, the evaluator
    returns the arithmetic value of the expression, whatever the table. *)
Theorem value_of_subtraction_free (e : expr) (v : value) :
  subtraction_free e = true ->
  arithmetic_value e = Some v ->
  _get_value_from_expression e = Ok v.
Proof.
  revert v.
  induction e as [c|id|n|op values|l IHl ops comparators
                 |func IHfunc args keywords starargs kwargs
                 |l IHl op r IHr|op operand IH|cls] using ast.expr_ind;
    intros v Hfree Hv; cbn in Hv; try discriminate.
  - injection Hv as <-. reflexivity.
  - destruct (arithmetic_value l) as [a|]; [|discriminate].
    destruct (arithmetic_value r) as [b|]; [|discriminate].
    cbn in Hv, Hfree.
    assert (Hlr : subtraction_free l = true /\ subtraction_free r = true).
    { destruct op; try discriminate; apply andb_prop, Hfree. }
    destruct Hlr as [Hfl Hfr].
    cbn. rewrite (IHl a Hfl eq_refl), (IHr b Hfr eq_refl). cbn.
    unfold number in Hv. unfold arithmetic.
    destruct op; try discriminate; try (injection Hv as <-; reflexivity);
      match type of Hv with
      | context [match ?o with _ => _ end] => destruct o
      end; try discriminate; injection Hv as <-; reflexivity.
  - destruct op; try discriminate. cbn in Hfree.
    destruct (arithmetic_value operand) as [a|]; [|discriminate].
    injection Hv as <-. cbn. rewrite (IH a Hfree eq_refl). reflexivity.
Qed.

(** *** Boolean combinations and comparison chains *)

Lemma check_each_Ok (nodes : list expr) :
  check_each nodes = Ok () <->
  Forall (fun node => exists u, parse_expression_dimensions node = Ok u) nodes.
Proof.
  induction nodes as [|node nodes IH]; cbn.
  - split; [constructor|reflexivity].
  - rewrite Forall_cons, <- IH.
    destruct (parse_expression_dimensions node) as [u|ex]; cbn.
    + split; [intros Hrest; split; [exists u; reflexivity|exact Hrest]|].
      intros [_ Hrest]. exact Hrest.
    + split; [discriminate|]. intros [[u Hu] _]. discriminate Hu.
Qed.

Lemma check_each_Raise (pre post : list expr) (node : expr) (ex : exn dim) :
  Forall (fun node => exists u, parse_expression_dimensions node = Ok u) pre ->
  parse_expression_dimensions node = Raise ex ->
  check_each (pre ++ node :: post)%list = Raise ex.
Proof.
  intros Hpre Hnode. induction Hpre as [|first pre [u Hfirst] _ IH]; cbn.
  - rewrite Hnode. reflexivity.
  - rewrite Hfirst. exact IH.
Qed.

(** X4.  A boolean combination has a dimension exactly when each operand
    has one, and then it is dimensionless whatever the dimensions of the
    operands; the exception of the first operand without a dimension is the
    exception of the combination. *)
Theorem boolean_combination_dimensions (op : ast.boolop) (values : list expr) :
  (forall d,
      parse_expression_dimensions (ast.BoolOp op values) = Ok d <->
      d = DIMENSIONLESS /\
      Forall (fun node => exists u, parse_expression_dimensions node = Ok u)
             values)
  /\
  (forall (pre : list expr) (node : expr) (post : list expr) (ex : exn dim),
      values = (pre ++ node :: post)%list ->
      Forall (fun node => exists u, parse_expression_dimensions node = Ok u)
             pre ->
      parse_expression_dimensions node = Raise ex ->
      parse_expression_dimensions (ast.BoolOp op values) = Raise ex).
Proof.
  rewrite parse_expression_dimensions_BoolOp. split.
  - intros d. rewrite <- check_each_Ok.
    destruct (check_each values) as [[]|ex]; cbn.
    + split; [intros [= <-]; split; reflexivity|].
      intros [-> _]. reflexivity.
    + split; [discriminate|]. intros [_ Hno]. discriminate Hno.
  - intros pre node post ex -> Hpre Hnode.
    rewrite (check_each_Raise pre post node ex Hpre Hnode). reflexivity.
Qed.

(** X5.  A comparison chain has a dimension exactly when all its operands
    have one and every two neighbouring operands have the same dimensions;
    the dimension of the chain is then dimensionless. *)
Theorem comparison_chain_accepted (l : expr) (ops : list ast.cmpop)
  (comparators : list expr) (d : dim) :
  parse_expression_dimensions (ast.Compare l ops comparators) = Ok d <->
  d = DIMENSIONLESS /\
  exists subunits,
    Forall2 (fun node u => parse_expression_dimensions node = Ok u)
            (l :: comparators) subunits /\
    forall i d1 d2,
      subunits !! i = Some d1 -> subunits !! S i = Some d2 ->
      have_same_dimensions d1 d2 = true.
Proof.
  rewrite parse_expression_dimensions_Compare. split.
  - destruct (dimensions_of (l :: comparators)) as [subunits|ex] eqn:Hunits;
      [|cbn; discriminate].
    change (mbind ?f (Ok subunits)) with (f subunits). cbn beta.
    destruct (compare_units l comparators (adjacent subunits)) as [[]|ex]
      eqn:Hpairs; [|cbn; discriminate].
    cbn. intros [= <-]. split; [reflexivity|]. exists subunits. split.
    + apply dimensions_of_Forall2, Hunits.
    + apply compare_units_Ok in Hpairs.
      exact (proj1 (adjacent_Forall
                      (fun a b => have_same_dimensions a b = true)
                      subunits) Hpairs).
  - intros [-> (subunits & Hunits & Hsame)].
    apply dimensions_of_Forall2 in Hunits. rewrite Hunits.
    change (mbind ?f (Ok subunits)) with (f subunits). cbn beta.
    pose proof (proj2 (adjacent_Forall
                         (fun a b => have_same_dimensions a b = true)
                         subunits) Hsame) as Hall.
    apply (compare_units_Ok render_node l comparators) in Hall. rewrite Hall. reflexivity.
Qed.

(** X6.  In a comparison chain whose operands all have a dimension, whose
    first two operands have different dimensions and are rendered by the
    renderer, the [DimensionMismatchError] carries the rendered left operand
    with its dimensions and the rendered first comparator with its
    dimensions. *)
Theorem comparison_first_pair_message (l c : expr) (ops : list ast.cmpop)
  (comparators : list expr) (dl dc : dim) (subunits : list dim)
  (e1 e2 : string) :
  Forall2 (fun node u => parse_expression_dimensions node = Ok u)
          (l :: c :: comparators) (dl :: dc :: subunits) ->
  have_same_dimensions dl dc = false ->
  render_node l = inl e1 ->
  render_node c = inl e2 ->
  parse_expression_dimensions (ast.Compare l ops (c :: comparators)) =
    Raise (DimensionMismatchError
             (comparison_of_different_units e1 dl e2 dc)).
Proof.
  intros Hunits Hne Hl Hc. apply dimensions_of_Forall2 in Hunits.
  rewrite parse_expression_dimensions_Compare, Hunits.
  cbn. rewrite Hne. unfold rendered. rewrite Hl, Hc. reflexivity.
Qed.

(** *** Binary operations *)


(** X8.  The dimensions of the exponent are not looked at once the base is
    not dimensionless: a constant scalar variable of any dimensions is an
    exponent, and the base is raised to its value. *)
Theorem exponent_dimensions_ignored (l : expr) (dl : dim) (name : string)
  (v : variable_descriptor dim value) :
  parse_expression_dimensions l = Ok dl ->
  have_same_dimensions dl DIMENSIONLESS = false ->
  variables !! name = Some (Var v) ->
  constant v = true -> scalar v = true ->
  parse_expression_dimensions (ast.BinOp l ast.Pow (ast.Name name)) =
    Ok (dim_pow dl (get_value v)).
Proof.
  intros Hl Hdl Hname Hconstant Hscalar. cbn.
  rewrite Hl, Hname. cbn. rewrite Hdl, Hconstant, Hscalar. reflexivity.
Qed.

(** *** Function calls *)

Lemma check_argument_Ok (name : string) (idx : nat) (arg : expr)
  (expected_unit : arg_unit dim) :
  check_argument name idx arg expected_unit = Ok () <->
  accepted arg expected_unit.
Proof.
  split; [|apply check_argument_accepted].
  destruct expected_unit as [| |expected]; cbn.
  - intros _. constructor.
  - destruct (is_boolean_expression arg) as [[|]|] eqn:Hb; cbn;
      [| |discriminate].
    + intros _. constructor. exact Hb.
    + destruct (rendered render_node arg); discriminate.
  - destruct (parse_expression_dimensions arg) as [u|] eqn:Hu;
      [|discriminate].
    cbn. destruct (have_same_dimensions u expected) eqn:Hsame; cbn.
    + intros _. econstructor; eassumption.
    + destruct (rendered render_node arg); discriminate.
Qed.

Lemma check_arguments_Ok (name : string) (args : list expr) :
  forall (idx : nat) (units : list (arg_unit dim)),
    length units = length args ->
    (check_arguments name idx args units = Ok () <->
     Forall2 accepted args units).
Proof.
  induction args as [|arg args IH]; intros idx [|unit units] Hlen;
    try discriminate.
  - split; [constructor|reflexivity].
  - injection Hlen as Hlen.
    change (check_arguments name idx (arg :: args) (unit :: units)) with
      (_ ← check_argument name idx arg unit;
       check_arguments name (S idx) args units).
    split.
    + destruct (check_argument name idx arg unit) as [[]|ex] eqn:Harg;
        [|discriminate].
      intros Hrest. constructor.
      * apply (check_argument_Ok name idx), Harg.
      * apply (IH (S idx) units Hlen), Hrest.
    + intros Hall. inversion Hall as [|? ? ? ? Harg Hrest]; subst.
      rewrite (check_argument_accepted render_node variables name idx
                 arg unit Harg).
      apply (IH (S idx) units Hlen), Hrest.
Qed.

(** The first argument that fails its check decides the exception. *)
Lemma check_arguments_Raise (name : string) (i : nat) :
  forall (idx : nat) (args : list expr) (units : list (arg_unit dim))
         (arg : expr) (unit : arg_unit dim) (ex : exn dim),
    args !! i = Some arg ->
    units !! i = Some unit ->
    (forall j a u, j < i -> args !! j = Some a -> units !! j = Some u ->
                   accepted a u) ->
    check_argument name (idx + i) arg unit = Raise ex ->
    check_arguments name idx args units = Raise ex.
Proof.
  induction i as [|i IH]; intros idx [|a args] [|u units] arg unit ex
    Ha Hu Hbefore Hex; try discriminate.
  - cbn in Hu, Ha. injection Hu as ->. injection Ha as ->.
    rewrite Nat.add_0_r in Hex.
    change (check_arguments name idx (arg :: args) (unit :: units)) with
      (_ ← check_argument name idx arg unit;
       check_arguments name (S idx) args units).
    rewrite Hex. reflexivity.
  - cbn in Hu, Ha.
    change (check_arguments name idx (a :: args) (u :: units)) with
      (_ ← check_argument name idx a u;
       check_arguments name (S idx) args units).
    rewrite (check_argument_accepted render_node variables name idx a u).
    + apply (IH (S idx) args units arg unit ex Ha Hu).
      * intros j a' u' Hj Ha' Hu'.
        apply (Hbefore (S j));
          [apply (proj1 (Nat.succ_lt_mono j i) Hj)|assumption..].
      * replace (S idx + i)%nat with (idx + S i)%nat
          by apply Nat.add_succ_r.
        exact Hex.
    + apply (Hbefore 0%nat); [apply Nat.lt_0_succ|reflexivity..].
Qed.

Lemma return_dimensions_Ok (ret : return_unit dim) (args : list expr)
  (d : dim) :
  return_dimensions ret args = Ok d <->
  match ret with
  | returns_bool => d = DIMENSIONLESS
  | returns_unit u => d = u
  | returns_by_rule rule =>
      exists us,
        Forall2 (fun node u => parse_expression_dimensions node = Ok u)
                args us /\ d = rule us
  end.
Proof.
  destruct ret as [|u|rule]; cbn.
  - split; [intros [= <-]|intros ->]; reflexivity.
  - split; [intros [= <-]|intros ->]; reflexivity.
  - destruct (dimensions_of args) as [us|ex] eqn:Hus; cbn.
    + apply dimensions_of_Forall2 in Hus. split.
      * intros [= <-]. exists us. split; [exact Hus|reflexivity].
      * intros (us' & Hus' & ->).
        apply dimensions_of_Forall2 in Hus, Hus'.
        rewrite Hus in Hus'. injection Hus' as <-. reflexivity.
    + split; [discriminate|]. intros (us & Hus' & _).
      apply dimensions_of_Forall2 in Hus'. rewrite Hus in Hus'.
      discriminate Hus'.
Qed.

(** What a call does before it looks at its arguments. *)
Lemma call_cases (func : expr) (args : list expr)
  (keywords : list (string * expr)) (starargs kwargs : option expr) :
  (exists m, parse_expression_dimensions
               (ast.Call func args keywords starargs kwargs) =
             Raise (ValueError m)) \/
  (exists m, parse_expression_dimensions
               (ast.Call func args keywords starargs kwargs) =
             Raise (SyntaxError m)) \/
  (exists m, parse_expression_dimensions
               (ast.Call func args keywords starargs kwargs) =
             Raise (AttributeError m)) \/
  (keywords = [] /\ starargs = None /\ kwargs = None /\
   exists name f units ret,
     func = ast.Name name /\
     variables !! name = Some (Func f) /\
     _arg_units f = Some units /\
     _return_unit f = Some ret /\
     length units = length args).
Proof.
  destruct keywords as [|keyword keywords]; [|left; eexists; reflexivity].
  destruct starargs as [stars|]; [left; eexists; reflexivity|].
  destruct kwargs as [kws|]; [left; eexists; reflexivity|].
  destruct func as [c|name|n|op values|l ops comparators
                   |func' args' keywords' starargs' kwargs'|l op r
                   |op operand|cls];
    try (right; right; left; eexists; reflexivity).
  cbn.
  destruct (variables !! name) as [[v|f]|] eqn:Hname;
    [left; eexists; reflexivity| |right; left; eexists; reflexivity].
  destruct (_arg_units f) as [units|] eqn:Hunits;
    [|left; eexists; reflexivity].
  destruct (_return_unit f) as [ret|] eqn:Hret;
    [|left; eexists; reflexivity].
  destruct (Nat.eqb (length units) (length args)) eqn:Hlen;
    [|right; left; eexists; reflexivity].
  apply Nat.eqb_eq in Hlen.
  right. right. right. repeat split.
  exists name, f, units, ret. repeat split; assumption.
Qed.

(** X9.  A call that has a dimension has no keyword and no starred
    arguments, and names a function of the table that tells the units of
    its arguments and of its result, as many as the call has arguments. *)
Theorem call_shape (func : expr) (args : list expr)
  (keywords : list (string * expr)) (starargs kwargs : option expr)
  (d : dim) :
  parse_expression_dimensions (ast.Call func args keywords starargs kwargs) =
    Ok d ->
  keywords = [] /\ starargs = None /\ kwargs = None /\
  exists name f units ret,
    func = ast.Name name /\
    variables !! name = Some (Func f) /\
    _arg_units f = Some units /\
    _return_unit f = Some ret /\
    length units = length args.
Proof.
  intros Hd.
  destruct keywords as [|keyword keywords]; [|discriminate Hd].
  destruct starargs as [stars|]; [discriminate Hd|].
  destruct kwargs as [kws|]; [discriminate Hd|].
  destruct func as [c|name|n|op values|l ops comparators
                   |func' args' keywords' starargs' kwargs'|l op r
                   |op operand|cls]; try discriminate Hd.
  cbn in Hd.
  destruct (variables !! name) as [[v|f]|] eqn:Hname; try discriminate Hd.
  destruct (_arg_units f) as [units|] eqn:Hunits; [|discriminate Hd].
  destruct (_return_unit f) as [ret|] eqn:Hret; [|discriminate Hd].
  destruct (Nat.eqb (length units) (length args)) eqn:Hlen;
    [|discriminate Hd].
  apply Nat.eqb_eq in Hlen.
  repeat split. exists name, f, units, ret. repeat split; assumption.
Qed.

(** X10.  A call of a function that tells its units has a dimension exactly
    when every argument is accepted by its entry of [_arg_units] and, for a
    result unit computed from the arguments, every argument has a
    dimension; the dimension is dimensionless for [bool], the fixed unit,
    or the rule applied to the dimensions of all arguments in order. *)
Theorem call_dimensions (name : string) (args : list expr)
  (f : function_descriptor dim) (units : list (arg_unit dim))
  (ret : return_unit dim) (d : dim) :
  variables !! name = Some (Func f) ->
  _arg_units f = Some units ->
  _return_unit f = Some ret ->
  (parse_expression_dimensions (ast.Call (ast.Name name) args [] None None) =
     Ok d <->
   Forall2 accepted args units /\
   match ret with
   | returns_bool => d = DIMENSIONLESS
   | returns_unit u => d = u
   | returns_by_rule rule =>
       exists us,
         Forall2 (fun node u => parse_expression_dimensions node = Ok u)
                 args us /\ d = rule us
   end).
Proof.
  intros Hf Hunits Hret. rewrite <- return_dimensions_Ok. split.
  - intros Hd.
    destruct (call_cases (ast.Name name) args [] None None)
      as [[m Hm]|[[m Hm]|[[m Hm]|
          (_ & _ & _ & name' & f' & units' & ret' & [= <-] & Hf' & Hunits'
           & Hret' & Hlen)]]];
      try (rewrite Hm in Hd; discriminate Hd).
    rewrite Hf in Hf'. injection Hf' as <-.
    rewrite Hunits in Hunits'. injection Hunits' as <-.
    rewrite Hret in Hret'. injection Hret' as <-.
    rewrite (parse_expression_dimensions_Call render_node variables name
               args f units ret Hf Hunits Hret Hlen) in Hd.
    destruct (check_arguments name 0 args units) as [[]|ex] eqn:Hargs;
      [|discriminate Hd].
    split; [|exact Hd]. apply (check_arguments_Ok name args 0 units Hlen), Hargs.
  - intros [Hargs Hd].
    pose proof (Forall2_length _ _ _ Hargs) as Hlen. symmetry in Hlen.
    rewrite (parse_expression_dimensions_Call render_node variables name
               args f units ret Hf Hunits Hret Hlen).
    apply (check_arguments_Ok name args 0 units Hlen) in Hargs.
    rewrite Hargs. exact Hd.
Qed.

(** X11.  Arguments whose entry of [_arg_units] is [None] are not looked at
    when the unit of the result is fixed: whatever they are, the call has
    the unit of the result. *)
Theorem unchecked_arguments (name : string) (args : list expr)
  (f : function_descriptor dim) (u : dim) :
  variables !! name = Some (Func f) ->
  _arg_units f = Some (replicate (length args) any_unit) ->
  _return_unit f = Some (returns_unit u) ->
  parse_expression_dimensions (ast.Call (ast.Name name) args [] None None) =
    Ok u.
Proof.
  intros Hf Hunits Hret.
  rewrite (parse_expression_dimensions_Call render_node variables name args
             f _ _ Hf Hunits Hret (length_replicate _ _)).
  assert (Hargs : Forall2 accepted args (replicate (length args) any_unit)).
  { clear. induction args as [|arg args IH]; constructor;
      [constructor|exact IH]. }
  apply (check_arguments_Ok name args 0 _ (length_replicate _ _)) in Hargs.
  rewrite Hargs. reflexivity.
Qed.

(** X12.  In a call that reaches the check of argument [i], whose entry of
    [_arg_units] is a unit, whose dimensions are not those of the unit and
    which the renderer renders, a [DimensionMismatchError] is raised that
    carries the number [i + 1], the name of the function, the rendered
    argument, its dimensions and the expected ones. *)
Theorem argument_dimension_mismatch (name : string)
  (f : function_descriptor dim) (units : list (arg_unit dim))
  (ret : return_unit dim) (args : list expr) (i : nat) (arg : expr)
  (u expected : dim) (text : string) :
  variables !! name = Some (Func f) ->
  _arg_units f = Some units ->
  _return_unit f = Some ret ->
  length units = length args ->
  units !! i = Some (unit_of expected) ->
  args !! i = Some arg ->
  (forall j a u, j < i -> args !! j = Some a -> units !! j = Some u ->
                 accepted a u) ->
  parse_expression_dimensions arg = Ok u ->
  have_same_dimensions u expected = false ->
  render_node arg = inl text ->
  parse_expression_dimensions (ast.Call (ast.Name name) args [] None None) =
    Raise (DimensionMismatchError
             (argument_wrong_units (i + 1) name text u expected)).
Proof.
  intros Hf Hunits Hret Hlen Hu Ha Hbefore Harg Hne Htext.
  rewrite (parse_expression_dimensions_Call render_node variables name args
             f units ret Hf Hunits Hret Hlen).
  rewrite (check_arguments_Raise name i 0 args units arg (unit_of expected)
             (DimensionMismatchError
                (argument_wrong_units (i + 1) name text u expected))
             Ha Hu Hbefore).
  - reflexivity.
  - cbn. rewrite Harg. cbn. rewrite Hne. unfold rendered. rewrite Htext.
    reflexivity.
Qed.

(** *** Boolean expressions and dimensions *)

(** X13.  In a table whose boolean variables are dimensionless and whose
    boolean functions have [bool] for the unit of their result, an
    expression that is boolean and has a dimension is dimensionless. *)
Theorem boolean_is_dimensionless (e : expr) (d : dim) :
  (forall name v,
      variables !! name = Some (Var v) -> is_boolean v = true ->
      dimensions v = DIMENSIONLESS) ->
  (forall name f,
      variables !! name = Some (Func f) -> _returns_bool f = Some true ->
      _return_unit f = Some returns_bool) ->
  is_boolean_expression e = Ok true ->
  parse_expression_dimensions e = Ok d ->
  d = DIMENSIONLESS.
Proof.
  intros Hvars Hfuncs Hb Hd.
  destruct e as [c|name|n|op values|l ops comparators
                |func args keywords starargs kwargs|l op r|op operand|cls];
    try discriminate Hb.
  - destruct c; try discriminate Hd; injection Hd as <-; reflexivity.
  - cbn in Hb, Hd.
    destruct (variables !! name) as [[v|f]|] eqn:Hname; try discriminate.
    + injection Hb as Hb. injection Hd as <-. exact (Hvars name v Hname Hb).
    + destruct (is_True_or_False name); try discriminate.
      injection Hd as <-. reflexivity.
  - rewrite parse_expression_dimensions_BoolOp in Hd.
    destruct (check_each values) as [[]|ex]; [|discriminate Hd].
    injection Hd as <-. reflexivity.
  - rewrite parse_expression_dimensions_Compare in Hd.
    destruct (dimensions_of (l :: comparators)) as [subunits|ex];
      [|discriminate Hd].
    change (mbind ?k (Ok subunits)) with (k subunits) in Hd. cbn beta in Hd.
    destruct (compare_units l comparators (adjacent subunits)) as [[]|ex];
      [|discriminate Hd].
    injection Hd as <-. reflexivity.
  - destruct (call_cases func args keywords starargs kwargs)
      as [[m Hm]|[[m Hm]|[[m Hm]|
          (-> & -> & -> & name & f & units & ret & -> & Hf & Hunits & Hret
           & Hlen)]]];
      try (rewrite Hm in Hd; discriminate Hd).
    cbn in Hb. rewrite Hf in Hb.
    destruct (_returns_bool f) as [[|]|] eqn:Hbool; try discriminate.
    rewrite (Hfuncs name f Hf Hbool) in Hret. injection Hret as <-.
    rewrite (parse_expression_dimensions_Call render_node variables name
               args f units returns_bool Hf Hunits
               (Hfuncs name f Hf Hbool) Hlen) in Hd.
    destruct (check_arguments name 0 args units) as [[]|ex];
      [|discriminate Hd].
    injection Hd as <-. reflexivity.
  - cbn in Hd. destruct (parse_expression_dimensions operand); [|discriminate].
    destruct op; try discriminate Hb. injection Hd as <-. reflexivity.
Qed.

(** *** Exceptions that are never raised *)

(** An exception that is not an [IndexError] is none in any result type. *)
Local Ltac passes_on H :=
  first [exact H
        |let Heq := fresh in
         intros Heq; apply H; injection Heq as ->; reflexivity].

Lemma is_boolean_expression_no_IndexError (e : expr) :
  is_boolean_expression e <> Raise IndexError.
Proof.
  induction e as [c|name|n|op values IH|l ops comparators _ _
                 |func args keywords starargs kwargs _|l op r _ _
                 |op operand _|cls] using expr_nested_ind;
    try discriminate.
  - destruct c; discriminate.
  - cbn. destruct (variables !! name) as [[v|f]|]; discriminate.
  - rewrite is_boolean_expression_BoolOp.
    assert (Hall : all_boolean values <> Raise IndexError).
    { induction IH as [|node values Hnode _ IHvalues]; cbn; [discriminate|].
      destruct (is_boolean_expression node) as [[|]|ex]; cbn;
        [exact IHvalues|discriminate|passes_on Hnode]. }
    destruct (all_boolean values) as [[|]|ex]; cbn; try discriminate.
    passes_on Hall.
  - cbn. destruct func; try discriminate. cbn.
    destruct (variables !! id) as [[v|f]|]; try discriminate.
    destruct (_returns_bool f); discriminate.
Qed.

Lemma _get_value_from_expression_no_IndexError (e : expr) :
  _get_value_from_expression e <> Raise IndexError.
Proof.
  induction e as [c|id|n|op values|l IHl ops comparators
                 |func IHfunc args keywords starargs kwargs
                 |l IHl op r IHr|op operand IH|cls] using ast.expr_ind;
    try discriminate; cbn.
  - destruct c; discriminate.
  - destruct (variables !! id) as [[v|f]|]; try discriminate.
    + destruct (constant v); [destruct (scalar v)|]; discriminate.
    + destruct (is_True_or_False id); discriminate.
  - destruct (_get_value_from_expression l) as [a|ex]; [|exact IHl].
    destruct (_get_value_from_expression r) as [b|ex]; [|exact IHr].
    cbn. unfold arithmetic.
    destruct op; try discriminate;
      match goal with
      | |- context [match ?o with _ => _ end] => destruct o
      end; discriminate.
  - destruct (_get_value_from_expression operand) as [a|ex]; [|exact IH].
    cbn. destruct op; discriminate.
Qed.

(** X14.  The dimension check never raises an [IndexError] of its own (the
    exceptions of the renderer and of the number operators are
    [Propagated]): the first comparator, which the message of a comparison
    renders, is there whenever two operands are compared. *)
Theorem no_IndexError (e : expr) :
  parse_expression_dimensions e <> Raise IndexError.
Proof.
  induction e as [c|name|n|op values IH|l ops comparators IHl IH
                 |func args keywords starargs kwargs IH|l op r IHl IHr
                 |op operand IH|cls] using expr_nested_ind;
    try discriminate.
  - destruct c; discriminate.
  - cbn. destruct (variables !! name) as [[v|f]|]; try discriminate.
    destruct (is_True_or_False name); discriminate.
  - rewrite parse_expression_dimensions_BoolOp.
    assert (Hall : check_each values <> Raise IndexError).
    { induction IH as [|node values Hnode _ IHvalues]; cbn; [discriminate|].
      destruct (parse_expression_dimensions node) as [u|ex]; cbn;
        [exact IHvalues|passes_on Hnode]. }
    destruct (check_each values) as [[]|ex]; cbn; [discriminate|passes_on Hall].
  - rewrite parse_expression_dimensions_Compare.
    assert (Hall : dimensions_of comparators <> Raise IndexError).
    { induction IH as [|node nodes Hnode _ IHnodes]; cbn; [discriminate|].
      destruct (parse_expression_dimensions node) as [u|ex]; cbn;
        [|passes_on Hnode].
      destruct (dimensions_of nodes) as [us|ex]; cbn;
        [discriminate|passes_on IHnodes]. }
    assert (Hunits : dimensions_of (l :: comparators) <> Raise IndexError).
    { change (dimensions_of (l :: comparators)) with
        (u ← parse_expression_dimensions l;
         us ← dimensions_of comparators;
         Ok (u :: us)).
      destruct (parse_expression_dimensions l) as [u|ex]; cbn;
        [|passes_on IHl].
      destruct (dimensions_of comparators) as [us|ex]; cbn;
        [discriminate|passes_on Hall]. }
    destruct (dimensions_of (l :: comparators)) as [subunits|ex] eqn:Hsub;
      [|cbn; passes_on Hunits].
    change (mbind ?f (Ok subunits)) with (f subunits). cbn beta.
    destruct comparators as [|c comparators].
    + cbn in Hsub.
      destruct (parse_expression_dimensions l) as [u|ex]; cbn in Hsub;
        [|discriminate Hsub].
      injection Hsub as <-. cbn. discriminate.
    + destruct (compare_units_Raise render_node l c comparators
                  (adjacent subunits))
        as [Hok|(d1 & d2 & _ & _ & Hraise)].
      * rewrite Hok. cbn. discriminate.
      * rewrite Hraise. unfold rendered.
        destruct (render_node l); cbn; [|discriminate].
        destruct (render_node c); cbn; discriminate.
  - destruct (call_cases func args keywords starargs kwargs)
      as [[m Hm]|[[m Hm]|[[m Hm]|
          (-> & -> & -> & name & f & units & ret & -> & Hf & Hunits & Hret
           & Hlen)]]];
      try (rewrite Hm; discriminate).
    rewrite (parse_expression_dimensions_Call render_node variables name
               args f units ret Hf Hunits Hret Hlen).
    assert (Hargs : forall idx units,
               check_arguments name idx args units <> Raise IndexError).
    { clear -IH. induction IH as [|arg args Harg _ IHargs];
        intros idx [|unit units]; try discriminate.
      change (check_arguments name idx (arg :: args) (unit :: units)) with
        (_ ← check_argument name idx arg unit;
         check_arguments name (S idx) args units).
      destruct unit as [| |expected]; cbn.
      - apply IHargs.
      - pose proof (is_boolean_expression_no_IndexError arg) as Hb.
        destruct (is_boolean_expression arg) as [[|]|ex]; cbn;
          [apply IHargs| |passes_on Hb].
        unfold rendered. destruct (render_node arg); discriminate.
      - destruct (parse_expression_dimensions arg) as [u|ex]; cbn;
          [|passes_on Harg].
        destruct (have_same_dimensions u expected); cbn;
          [apply IHargs|].
        unfold rendered. destruct (render_node arg); discriminate. }
    assert (Hall : dimensions_of args <> Raise IndexError).
    { clear -IH. induction IH as [|node nodes Hnode _ IHnodes]; cbn;
        [discriminate|].
      destruct (parse_expression_dimensions node) as [u|ex]; cbn;
        [|passes_on Hnode].
      destruct (dimensions_of nodes) as [us|ex]; cbn;
        [discriminate|passes_on IHnodes]. }
    destruct (check_arguments name 0 args units) as [[]|ex] eqn:Hcheck; cbn.
    + destruct ret as [|u|rule]; cbn; try discriminate.
      destruct (dimensions_of args) as [us|ex]; cbn;
        [discriminate|passes_on Hall].
    + pose proof (Hargs 0%nat units) as Hnone. rewrite Hcheck in Hnone.
      passes_on Hnone.
  - cbn.
    destruct (parse_expression_dimensions l) as [dl|ex]; cbn; [|passes_on IHl].
    destruct (parse_expression_dimensions r) as [dr|ex]; cbn; [|passes_on IHr].
    pose proof (_get_value_from_expression_no_IndexError r) as Hvalue.
    unfold fail_for_dimension_mismatch, rendered.
    destruct op; try discriminate;
      try (destruct (render_node l); cbn; [|discriminate];
           destruct (render_node r); cbn; [|discriminate];
           destruct (have_same_dimensions dl dr); discriminate).
    destruct (have_same_dimensions dl DIMENSIONLESS
              && have_same_dimensions dr DIMENSIONLESS); [discriminate|].
    destruct (_get_value_from_expression r) as [n|ex]; cbn;
      [discriminate|passes_on Hvalue].
  - cbn. destruct (parse_expression_dimensions operand) as [u|ex]; cbn;
      [|passes_on IH].
    destruct op; discriminate.
Qed.

End Coverage.

(** *** The renderer *)

Section Rendering.

Context {dim value : Type}.
Context `{!Number value} `{!DimensionAlgebra dim value}.

Variable render1 render2 : ast.expr value -> string + python_exception.
Variable variables : gmap string (descriptor dim value).

(** The second renderer renders what the first one renders. *)
Hypothesis renders :
  forall node text, render1 node = inl text ->
                    exists text', render2 node = inl text'.

Lemma accepted_rendering (arg : ast.expr value) (unit : arg_unit dim) :
  (forall d, parse_expression_dimensions render1 variables arg = Ok d ->
             parse_expression_dimensions render2 variables arg = Ok d) ->
  accepted render1 variables arg unit ->
  accepted render2 variables arg unit.
Proof.
  intros Harg [|Hbool|u expected Hu Hsame].
  - constructor.
  - constructor. exact Hbool.
  - econstructor; [apply Harg, Hu|exact Hsame].
Qed.

Lemma dimensions_rendering (nodes : list (ast.expr value)) :
  Forall (fun node =>
            forall d, parse_expression_dimensions render1 variables node = Ok d ->
                      parse_expression_dimensions render2 variables node = Ok d)
         nodes ->
  forall us,
    Forall2 (fun node u =>
               parse_expression_dimensions render1 variables node = Ok u)
            nodes us ->
    Forall2 (fun node u =>
               parse_expression_dimensions render2 variables node = Ok u)
            nodes us.
Proof.
  intros Hnodes. induction Hnodes as [|node nodes Hnode _ IH]; intros us Hus;
    inversion Hus as [|? u ? us' Hu Hus']; subst; constructor.
  - apply Hnode, Hu.
  - apply IH, Hus'.
Qed.

Lemma dimension_rendering (e : ast.expr value) :
  forall d,
    parse_expression_dimensions render1 variables e = Ok d ->
    parse_expression_dimensions render2 variables e = Ok d.
Proof.
  induction e as [c|name|n|op values IH|l ops comparators IHl IH
                 |func args keywords starargs kwargs IH|l op r IHl IHr
                 |op operand IH|cls] using expr_nested_ind;
    intros d Hd; try exact Hd.
  - rewrite parse_expression_dimensions_BoolOp in Hd |- *.
    destruct (check_each render1 variables values) as [[]|ex] eqn:Hall;
      [|discriminate Hd].
    apply check_each_Ok in Hall.
    assert (Hall2 : check_each render2 variables values = Ok ()).
    { apply check_each_Ok. clear -IH Hall.
      induction IH as [|node values Hnode _ IHvalues]; [constructor|].
      inversion Hall as [|? ? [u Hu] Hrest]; subst. constructor.
      - exists u. apply Hnode, Hu.
      - apply IHvalues, Hrest. }
    rewrite Hall2. exact Hd.
  - rewrite parse_expression_dimensions_Compare in Hd |- *.
    destruct (dimensions_of render1 variables (l :: comparators))
      as [subunits|ex] eqn:Hunits; [|discriminate Hd].
    apply dimensions_of_Forall2 in Hunits.
    apply dimensions_rendering in Hunits; [|constructor; assumption].
    apply dimensions_of_Forall2 in Hunits. rewrite Hunits.
    change (mbind ?k (Ok subunits)) with (k subunits) in Hd |- *.
    cbn beta in Hd |- *.
    destruct (compare_units render1 l comparators (adjacent subunits))
      as [[]|ex] eqn:Hpairs; [|discriminate Hd].
    apply compare_units_Ok in Hpairs.
    apply (compare_units_Ok render2 l comparators) in Hpairs.
    rewrite Hpairs. exact Hd.
  - destruct (call_cases render1 variables func args keywords starargs kwargs)
      as [[m Hm]|[[m Hm]|[[m Hm]|
          (-> & -> & -> & name & f & units & ret & -> & Hf & Hunits & Hret
           & Hlen)]]];
      try (rewrite Hm in Hd; discriminate Hd).
    rewrite (parse_expression_dimensions_Call render1 variables name args
               f units ret Hf Hunits Hret Hlen) in Hd.
    rewrite (parse_expression_dimensions_Call render2 variables name args
               f units ret Hf Hunits Hret Hlen).
    destruct (check_arguments render1 variables name 0 args units)
      as [[]|ex] eqn:Hargs; [|discriminate Hd].
    apply (check_arguments_Ok render1 variables name args 0 units Hlen)
      in Hargs.
    assert (Hargs2 : Forall2 (accepted render2 variables) args units).
    { clear -IH Hargs. revert units Hargs.
      induction IH as [|arg args Harg _ IHargs]; intros units Hargs;
        inversion Hargs as [|? unit ? units' Hunit Hrest]; subst;
        constructor.
      - apply accepted_rendering; assumption.
      - apply IHargs, Hrest. }
    apply (check_arguments_Ok render2 variables name args 0 units Hlen)
      in Hargs2.
    rewrite Hargs2.
    change (mbind ?k (Ok ())) with (k ()) in Hd |- *. cbn beta in Hd |- *.
    apply return_dimensions_Ok in Hd. apply return_dimensions_Ok.
    destruct ret as [|u|rule]; try exact Hd.
    destruct Hd as (us & Hus & ->). exists us. split; [|reflexivity].
    apply dimensions_rendering; assumption.
  - cbn in Hd |- *.
    destruct (parse_expression_dimensions render1 variables l) as [dl|]
      eqn:Hl; [|discriminate Hd].
    destruct (parse_expression_dimensions render1 variables r) as [dr|]
      eqn:Hr; [|discriminate Hd].
    rewrite (IHl dl eq_refl), (IHr dr eq_refl).
    cbn in Hd |- *. unfold fail_for_dimension_mismatch, rendered in *.
    destruct op; try exact Hd;
      (destruct (render1 l) as [t1|] eqn:H1; [|discriminate Hd];
       destruct (render1 r) as [t2|] eqn:H2; [|discriminate Hd];
       destruct (renders l t1 H1) as [t1' ->];
       destruct (renders r t2 H2) as [t2' ->];
       cbn in Hd |- *;
       destruct (have_same_dimensions dl dr); [exact Hd|discriminate Hd]).
  - cbn in Hd |- *.
    destruct (parse_expression_dimensions render1 variables operand) as [u|]
      eqn:Hu; [|discriminate Hd].
    rewrite (IH u eq_refl). exact Hd.
Qed.

End Rendering.

(** X15.  The renderer serves the messages only: two renderers that render
    the same expressions give an expression the same dimension, or none
    either. *)
Theorem rendering_independent {dim value : Type} `{!Number value}
  `{!DimensionAlgebra dim value}
  (render1 render2 : ast.expr value -> string + python_exception)
  (variables : gmap string (descriptor dim value)) (e : ast.expr value)
  (d : dim) :
  (forall node,
      (exists text, render1 node = inl text) <->
      (exists text, render2 node = inl text)) ->
  (parse_expression_dimensions render1 variables e = Ok d <->
   parse_expression_dimensions render2 variables e = Ok d).
Proof.
  intros Hsame. split; apply dimension_rendering; intros node text Htext.
  - apply Hsame. exists text. exact Htext.
  - apply Hsame. exists text. exact Htext.
Qed.

(** ** The further properties on the examples *)

Section CoverageExamples.

Import example.

Local Abbreviation value_of := (_get_value_from_expression larger_table).
Local Abbreviation dimension_of :=
  (parse_expression_dimensions render larger_table).

Lemma value_only_of_constant_expression_witness :
  constant_expression
    (ast.BinOp (ast.Name "k") ast.Mult (ast.UnaryOp ast.USub (ast.Num 3%Z))).
Proof.
  apply (value_only_of_constant_expression larger_table _ (-6)%Z).
  reflexivity.
Defined.


Lemma value_of_subtraction_free_witness :
  value_of (ast.BinOp (ast.BinOp (ast.Num 7%Z) ast.Mod (ast.Num 4%Z))
                      ast.Pow (ast.UnaryOp ast.USub (ast.Num (-2)%Z))) =
    Ok 9%Z.
Proof.
  apply (value_of_subtraction_free larger_table); reflexivity.
Defined.

Lemma boolean_combination_dimensions_witness :
  dimension_of (ast.BoolOp ast.Or [ast.Compare x [ast.Lt] [y]; z]) =
    Ok DIMENSIONLESS /\
  dimension_of (ast.BoolOp ast.And [x; ast.BinOp x ast.Add z; ast.Name "w"]) =
    Raise (DimensionMismatchError
             (cannot_determine_units "x" "+" "z" metre second)).
Proof.
  split.
  - apply (proj1 (boolean_combination_dimensions render larger_table ast.Or
                    [ast.Compare x [ast.Lt] [y]; z])).
    split; [reflexivity|]. repeat constructor; eexists; reflexivity.
  - apply (proj2 (boolean_combination_dimensions render larger_table ast.And
                    [x; ast.BinOp x ast.Add z; ast.Name "w"])
             [x] (ast.BinOp x ast.Add z) [ast.Name "w"]);
      [reflexivity|repeat constructor; eexists; reflexivity|reflexivity].
Defined.

Lemma comparison_chain_accepted_witness :
  dimension_of (ast.Compare x [ast.Lt; ast.LtE] [y; x]) = Ok DIMENSIONLESS.
Proof.
  apply (comparison_chain_accepted render larger_table).
  split; [reflexivity|]. exists [metre; metre; metre]. split.
  - repeat constructor.
  - intros [|[|[|i]]] d1 d2 H1 H2; try discriminate H2;
      injection H1 as <-; injection H2 as <-; reflexivity.
Defined.

Lemma comparison_first_pair_message_witness :
  dimension_of (ast.Compare z [ast.Gt; ast.Gt] [x; y]) =
    Raise (DimensionMismatchError
             (comparison_of_different_units "z" second "x" metre)).
Proof.
  apply (comparison_first_pair_message render larger_table z x
           [ast.Gt; ast.Gt] [y] second metre [metre] "z" "x").
  - repeat constructor.
  - reflexivity.
  - reflexivity.
  - reflexivity.
Defined.


Lemma exponent_dimensions_ignored_witness :
  dimension_of (ast.BinOp x ast.Pow (ast.Name "k")) =
    Ok [2; 0; 0; 0; 0; 0; 0]%Z.
Proof.
  exact (exponent_dimensions_ignored render larger_table x metre "k"
           {| dimensions := second; is_boolean := false; constant := true;
              scalar := true; get_value := 2%Z |}
           eq_refl eq_refl eq_refl eq_refl eq_refl).
Defined.

Lemma call_shape_witness :
  exists name f units ret,
    @ast.Name Z "pick" = ast.Name name /\
    larger_table !! name = Some (Func f) /\
    _arg_units f = Some units /\
    _return_unit f = Some ret /\
    length units = 2%nat.
Proof.
  exact (proj2 (proj2 (proj2
           (call_shape render larger_table (ast.Name "pick")
              [x; ast.Name "b"] [] None None DIMENSIONLESS eq_refl)))).
Defined.

Lemma call_dimensions_witness :
  dimension_of
    (ast.Call (ast.Name "sqrt") [ast.BinOp x ast.Mult x] [] None None) =
    Ok metre.
Proof.
  apply (call_dimensions render larger_table "sqrt" [ast.BinOp x ast.Mult x]
           {| _arg_units := Some [any_unit];
              _return_unit := Some (returns_by_rule halved);
              _returns_bool := Some false |}
           [any_unit] (returns_by_rule halved) metre eq_refl eq_refl eq_refl).
  split.
  - repeat constructor.
  - exists [[2; 0; 0; 0; 0; 0; 0]%Z]. split; [repeat constructor|reflexivity].
Defined.

Lemma unchecked_arguments_witness :
  dimension_of
    (ast.Call (ast.Name "hold") [ast.BinOp x ast.Add z; ast.Name "w"]
              [] None None) = Ok second.
Proof.
  apply (unchecked_arguments render larger_table "hold"
           [ast.BinOp x ast.Add z; ast.Name "w"]
           {| _arg_units := Some [any_unit; any_unit];
              _return_unit := Some (returns_unit second);
              _returns_bool := Some false |});
    reflexivity.
Defined.

Lemma argument_dimension_mismatch_witness :
  dimension_of (ast.Call (ast.Name "pick") [z; ast.Name "b"] [] None None) =
    Raise (DimensionMismatchError
             (argument_wrong_units 1 "pick" "z" second metre)).
Proof.
  apply (argument_dimension_mismatch render larger_table "pick"
           {| _arg_units := Some [unit_of metre; bool_unit];
              _return_unit := Some returns_bool;
              _returns_bool := Some true |}
           [unit_of metre; bool_unit] returns_bool [z; ast.Name "b"] 0 z
           second metre "z");
    try reflexivity.
  intros j a u Hj. inversion Hj.
Defined.

Lemma boolean_is_dimensionless_witness :
  DIMENSIONLESS = DIMENSIONLESS :> list Z.
Proof.
  apply (boolean_is_dimensionless render boolean_table
           (ast.BoolOp ast.And
              [ast.Name "b";
               ast.Call (ast.Name "pick") [x; ast.Name "b"] [] None None;
               ast.UnaryOp ast.Not (ast.Num 0%Z)])
           DIMENSIONLESS);
    try reflexivity.
  - intros name v Hname Hb. unfold boolean_table in Hname.
    apply lookup_insert_Some in Hname.
    destruct Hname as [[_ [= <-]]|[_ Hname]]; [reflexivity|].
    apply lookup_insert_Some in Hname.
    destruct Hname as [[_ Hpick]|[_ Hname]]; [discriminate Hpick|].
    apply lookup_insert_Some in Hname.
    destruct Hname as [[_ [= <-]]|[_ Hname]]; [discriminate Hb|].
    rewrite lookup_empty in Hname. discriminate Hname.
  - intros name f Hname Hb. unfold boolean_table in Hname.
    apply lookup_insert_Some in Hname.
    destruct Hname as [[_ Hflag]|[_ Hname]]; [discriminate Hflag|].
    apply lookup_insert_Some in Hname.
    destruct Hname as [[_ [= <-]]|[_ Hname]]; [reflexivity|].
    apply lookup_insert_Some in Hname.
    destruct Hname as [[_ Hx]|[_ Hname]]; [discriminate Hx|].
    rewrite lookup_empty in Hname. discriminate Hname.
Defined.

Lemma no_IndexError_witness :
  dimension_of (ast.Compare x [] []) <> Raise IndexError.
Proof. exact (no_IndexError render larger_table (ast.Compare x [] [])). Defined.

Lemma rendering_independent_witness :
  parse_expression_dimensions
    (fun node => match render node with
                 | inl _ => inl "?"
                 | inr raised => inr raised
                 end)
    larger_table (ast.BinOp x ast.Add (ast.BinOp y ast.Div (ast.Name "k"))) =
    Raise (DimensionMismatchError
             (cannot_determine_units "?" "+" "?" metre
                                     [1; 0; -1; 0; 0; 0; 0]%Z)) /\
  parse_expression_dimensions
    (fun node => match render node with
                 | inl _ => inl "?"
                 | inr raised => inr raised
                 end)
    larger_table (ast.BinOp x ast.Add (ast.UnaryOp ast.USub y)) =
    Ok metre.
Proof.
  split; [reflexivity|].
  apply (rendering_independent render
           (fun node => match render node with
                        | inl _ => inl "?"
                        | inr raised => inr raised
                        end)
           larger_table).
  - intros node. destruct (render node) as [text|raised].
    + split; intros _; eexists; reflexivity.
    + split; intros [text Htext]; discriminate Htext.
  - reflexivity.
Defined.

End CoverageExamples.
